(** * Request lifecycle of the ChatGPT side panel

    A shallow embedding of [src/extension.ts]: the [ChatGPTViewProvider]
    object, the configuration-change handler of [activate], and the
    continuations of the asynchronous [sendMessageAndGetResponse].

    The provider is a record of its private fields.  What lives outside the
    provider but is shared with it is kept in a [World]:
    - the [AbortController] objects, as a store of "aborted" flags indexed by
      allocation order (the provider holds the address of the live one, every
      request holds the address of the one whose signal it was given);
    - the closures of the requests whose [sendMessage] call has been issued
      (captured generation, the local [response] variable, the options handed
      to the backend);
    - the trace of what the provider did to the host: messages posted to the
      webview, [show] calls and the focus command.

    JavaScript values are modelled as follows: [string | undefined] is
    [option string]; a [number] that only counts requests is [nat]; the
    timeout is a [Z]; truthiness tests are written out.

    The single-threaded event loop is a step function over events.  An
    asynchronous function is cut at its [await]: [sendMessageAndGetResponse]
    into the part before the backend call and the continuations for progress,
    fulfilment and rejection; [searchSelection], which awaits the focus
    command when there is no view, into [suspendSelection] before the await
    and [sendSelection] after it, with [searchSelection] itself the call that
    nothing interrupts but the host resolving the view.  The HTML of the
    webview is left out. *)

From Stdlib Require Import Ascii String ZArith Lia.
From stdpp Require Import base list strings.

(** ** Data model *)

(** [type AuthInfo]. *)
Record AuthInfo := {
  mode : option string;
  apiKey : option string;
  accessToken : option string;
  proxyUrl : option string
}.

(** [type Settings]: every field is optional; [None] is an absent key. *)
Record Settings := {
  selectedInsideCodeblock : option bool;
  keepConversation : option bool;
  timeoutLength : option Z
}.

(** [type WorkingState = 'idle' | 'asking']. *)
Inductive WorkingState := idle | asking.

(** The two backend classes of the [chatgpt] package, with the options the
    provider constructs them with. *)
Inductive ChatBackend :=
| ChatGPTAPI (key : string)
| ChatGPTUnofficialProxyAPI (token apiReverseProxyUrl : string).

(** The object stored in [_conversation]. *)
Record Conversation := {
  conversationId : string;
  parentMessageId : string
}.

(** What [sendMessage] resolves to: the fields the provider reads. *)
Record ChatMessage := {
  res_text : string;
  res_conversationId : string;
  res_id : string
}.

(** The host's [WebviewView], reduced to the property the provider reads. *)
Record WebviewView := { visible : bool }.

(** Messages posted to the webview. *)
Inductive Message :=
| setWorkingState (value : WorkingState)
| setPrompt (value : option string)
| addResponse (value : string).

(** What the provider does to the host. *)
Inductive Effect :=
| Posted (m : Message)
| Shown
| FocusCommand.

(** The private fields of [ChatGPTViewProvider]. *)
Record Provider := {
  _view : option WebviewView;
  _chatGPTAPI : option ChatBackend;
  _conversation : option Conversation;
  _abortController : nat;
  _response : option string;
  _prompt : option string;
  _fullPrompt : option string;
  _currentMessageNumber : nat;
  _workingState : WorkingState;
  _settings : Settings;
  _authInfo : option AuthInfo
}.

(** The closure of one [sendMessage] call: the options handed to the backend
    and the locals captured by its [onProgress] callback and continuation. *)
Record Request := {
  api : ChatBackend;
  searchPrompt : string;
  timeoutMs : Z;
  abortSignal : nat;
  conversation : option Conversation;
  currentMessageNumber : nat;
  response : string;
  settled : bool
}.

Record World := {
  this : Provider;
  controllers : list bool;
  requests : list Request;
  effects : list Effect
}.

#[global] Instance WorkingState_eq_dec : EqDecision WorkingState.
Proof. solve_decision. Defined.
#[global] Instance Message_eq_dec : EqDecision Message.
Proof. solve_decision. Defined.
#[global] Instance Effect_eq_dec : EqDecision Effect.
Proof. solve_decision. Defined.

(** ** Field updates *)

Definition set_view (v : option WebviewView) (p : Provider) : Provider :=
  {| _view := v; _chatGPTAPI := _chatGPTAPI p; _conversation := _conversation p;
     _abortController := _abortController p; _response := _response p;
     _prompt := _prompt p; _fullPrompt := _fullPrompt p;
     _currentMessageNumber := _currentMessageNumber p;
     _workingState := _workingState p; _settings := _settings p;
     _authInfo := _authInfo p |}.

Definition set_chatGPTAPI (b : option ChatBackend) (p : Provider) : Provider :=
  {| _view := _view p; _chatGPTAPI := b; _conversation := _conversation p;
     _abortController := _abortController p; _response := _response p;
     _prompt := _prompt p; _fullPrompt := _fullPrompt p;
     _currentMessageNumber := _currentMessageNumber p;
     _workingState := _workingState p; _settings := _settings p;
     _authInfo := _authInfo p |}.

Definition set_conversation (c : option Conversation) (p : Provider) : Provider :=
  {| _view := _view p; _chatGPTAPI := _chatGPTAPI p; _conversation := c;
     _abortController := _abortController p; _response := _response p;
     _prompt := _prompt p; _fullPrompt := _fullPrompt p;
     _currentMessageNumber := _currentMessageNumber p;
     _workingState := _workingState p; _settings := _settings p;
     _authInfo := _authInfo p |}.

Definition set_abortController (a : nat) (p : Provider) : Provider :=
  {| _view := _view p; _chatGPTAPI := _chatGPTAPI p; _conversation := _conversation p;
     _abortController := a; _response := _response p;
     _prompt := _prompt p; _fullPrompt := _fullPrompt p;
     _currentMessageNumber := _currentMessageNumber p;
     _workingState := _workingState p; _settings := _settings p;
     _authInfo := _authInfo p |}.

Definition set_response (r : option string) (p : Provider) : Provider :=
  {| _view := _view p; _chatGPTAPI := _chatGPTAPI p; _conversation := _conversation p;
     _abortController := _abortController p; _response := r;
     _prompt := _prompt p; _fullPrompt := _fullPrompt p;
     _currentMessageNumber := _currentMessageNumber p;
     _workingState := _workingState p; _settings := _settings p;
     _authInfo := _authInfo p |}.

Definition set_prompt (s : option string) (p : Provider) : Provider :=
  {| _view := _view p; _chatGPTAPI := _chatGPTAPI p; _conversation := _conversation p;
     _abortController := _abortController p; _response := _response p;
     _prompt := s; _fullPrompt := _fullPrompt p;
     _currentMessageNumber := _currentMessageNumber p;
     _workingState := _workingState p; _settings := _settings p;
     _authInfo := _authInfo p |}.

Definition set_fullPrompt (s : option string) (p : Provider) : Provider :=
  {| _view := _view p; _chatGPTAPI := _chatGPTAPI p; _conversation := _conversation p;
     _abortController := _abortController p; _response := _response p;
     _prompt := _prompt p; _fullPrompt := s;
     _currentMessageNumber := _currentMessageNumber p;
     _workingState := _workingState p; _settings := _settings p;
     _authInfo := _authInfo p |}.

Definition set_currentMessageNumber (n : nat) (p : Provider) : Provider :=
  {| _view := _view p; _chatGPTAPI := _chatGPTAPI p; _conversation := _conversation p;
     _abortController := _abortController p; _response := _response p;
     _prompt := _prompt p; _fullPrompt := _fullPrompt p;
     _currentMessageNumber := n;
     _workingState := _workingState p; _settings := _settings p;
     _authInfo := _authInfo p |}.

Definition set_workingState (s : WorkingState) (p : Provider) : Provider :=
  {| _view := _view p; _chatGPTAPI := _chatGPTAPI p; _conversation := _conversation p;
     _abortController := _abortController p; _response := _response p;
     _prompt := _prompt p; _fullPrompt := _fullPrompt p;
     _currentMessageNumber := _currentMessageNumber p;
     _workingState := s; _settings := _settings p;
     _authInfo := _authInfo p |}.

Definition set_settings (s : Settings) (p : Provider) : Provider :=
  {| _view := _view p; _chatGPTAPI := _chatGPTAPI p; _conversation := _conversation p;
     _abortController := _abortController p; _response := _response p;
     _prompt := _prompt p; _fullPrompt := _fullPrompt p;
     _currentMessageNumber := _currentMessageNumber p;
     _workingState := _workingState p; _settings := s;
     _authInfo := _authInfo p |}.

Definition set_authInfo (a : option AuthInfo) (p : Provider) : Provider :=
  {| _view := _view p; _chatGPTAPI := _chatGPTAPI p; _conversation := _conversation p;
     _abortController := _abortController p; _response := _response p;
     _prompt := _prompt p; _fullPrompt := _fullPrompt p;
     _currentMessageNumber := _currentMessageNumber p;
     _workingState := _workingState p; _settings := _settings p;
     _authInfo := a |}.

Definition on_this (f : Provider -> Provider) (w : World) : World :=
  {| this := f (this w); controllers := controllers w;
     requests := requests w; effects := effects w |}.

Definition set_controllers (cs : list bool) (w : World) : World :=
  {| this := this w; controllers := cs;
     requests := requests w; effects := effects w |}.

Definition set_requests (rs : list Request) (w : World) : World :=
  {| this := this w; controllers := controllers w;
     requests := rs; effects := effects w |}.

Definition emit (e : Effect) (w : World) : World :=
  {| this := this w; controllers := controllers w;
     requests := requests w; effects := effects w ++ [e] |}.

Definition set_local_response (s : string) (r : Request) : Request :=
  {| api := api r; searchPrompt := searchPrompt r; timeoutMs := timeoutMs r;
     abortSignal := abortSignal r; conversation := conversation r;
     currentMessageNumber := currentMessageNumber r;
     response := s; settled := settled r |}.

Definition set_settled (r : Request) : Request :=
  {| api := api r; searchPrompt := searchPrompt r; timeoutMs := timeoutMs r;
     abortSignal := abortSignal r; conversation := conversation r;
     currentMessageNumber := currentMessageNumber r;
     response := response r; settled := true |}.

(** ** JavaScript idioms *)

Definition nl : string := String "010"%char EmptyString.
Definition dquote : string := String "034"%char EmptyString.
Definition fence : string := "```".

(** Truthiness of a [string | undefined]. *)
Definition truthy (o : option string) : bool :=
  match o with
  | Some s => negb (String.eqb s "")
  | None => false
  end.

(** [o === s] for a string literal [s]. *)
Definition is_str (o : option string) (s : string) : bool :=
  match o with
  | Some x => String.eqb x s
  | None => false
  end.

(** [b || false] and truthiness of a [boolean | undefined]. *)
Definition or_false (o : option bool) : bool := default false o.

(** [n || 60] for a [number | undefined]. *)
Definition or_60 (o : option Z) : Z :=
  match o with
  | Some n => if (n =? 0)%Z then 60%Z else n
  | None => 60%Z
  end.

(** [{...a, ...b}] on [Settings]. *)
Definition spread (a b : Settings) : Settings :=
  {| selectedInsideCodeblock :=
       match selectedInsideCodeblock b with Some x => Some x | None => selectedInsideCodeblock a end;
     keepConversation :=
       match keepConversation b with Some x => Some x | None => keepConversation a end;
     timeoutLength :=
       match timeoutLength b with Some x => Some x | None => timeoutLength a end |}.

(** ** The provider's methods *)

(** [this._view?.webview.postMessage(m)]. *)
Definition postMessage (m : Message) (w : World) : World :=
  match _view (this w) with
  | Some _ => emit (Posted m) w
  | None => w
  end.

(** [this._view?.show?.(true)] and [this._view.show?.(true)]. *)
Definition show (w : World) : World :=
  match _view (this w) with
  | Some _ => emit Shown w
  | None => w
  end.

Definition setSettings (settings : Settings) (w : World) : World :=
  on_this (fun p => set_settings (spread (_settings p) settings) p) w.

Definition getSettings (w : World) : Settings := _settings (this w).

Definition _setWorkingState (m : WorkingState) (w : World) : World :=
  let w := on_this (set_workingState m) w in
  postMessage (setWorkingState (_workingState (this w))) w.

Definition _newAPI (p : Provider) : Provider :=
  let p := set_currentMessageNumber 0 (set_conversation None p) in
  match _authInfo p with
  | None => p
  | Some a =>
    if is_str (mode a) "ChatGPTAPI" then
      match apiKey a with
      | Some k =>
        if String.eqb k "" then p
        else set_chatGPTAPI (Some (ChatGPTAPI k)) p
      | None => p
      end
    else if is_str (mode a) "ChatGPTUnofficialProxyAPI" then
      match accessToken a with
      | Some t =>
        if String.eqb t "" then p
        else match proxyUrl a with
             | Some u =>
               if String.eqb u "" then p
               else set_chatGPTAPI (Some (ChatGPTUnofficialProxyAPI t u)) p
             | None => p
             end
      | None => p
      end
    else p
  end.

Definition setAuthenticationInfo (authInfo : AuthInfo) (w : World) : World :=
  on_this (fun p => _newAPI (set_authInfo (Some authInfo) p)) w.

(** The host calls this when the view is first revealed. *)
Definition resolveWebviewView (webviewView : WebviewView) (w : World) : World :=
  on_this (set_view (Some webviewView)) w.

(** The ['webviewLoaded'] message of the webview. *)
Definition webviewLoaded (w : World) : World :=
  postMessage (setWorkingState (_workingState (this w))) w.

Definition resetConversation (w : World) : World :=
  let w := on_this (set_conversation None) w in
  let w := on_this (set_currentMessageNumber 0) w in
  let w := on_this (set_prompt (Some "")) w in
  let w := on_this (set_response (Some "")) w in
  let w := on_this (set_fullPrompt (Some "")) w in
  let w := postMessage (setPrompt (Some "")) w in
  postMessage (addResponse "") w.

(** The tail of [sendMessageAndGetResponse]: save the response, show the
    view and post the response; the value is what the function returns. *)
Definition saveResponse (r : string) (w : World) : string * World :=
  let w := on_this (set_response (Some r)) w in
  let w := match _view (this w) with
           | Some _ => postMessage (addResponse r) (show w)
           | None => w
           end in
  (r, w).

Definition noApiResponse : string :=
  "[ERROR] " +:+ dquote +:+
  "API key not set or wrong, please go to extension settings to set it (read README.md for more info)"
  +:+ dquote.

(** [sendMessageAndGetResponse] up to its [await]: without a backend it runs
    to its end and returns the response; with one it issues the [sendMessage]
    call, whose closure joins [requests], and the promise stays pending. *)
Definition sendMessageAndGetResponse (prompt : string) (w : World)
  : option string * World :=
  match _chatGPTAPI (this w) with
  | None =>
    let '(r, w) := saveResponse noApiResponse w in (Some r, w)
  | Some backend =>
    let w := postMessage (setPrompt (_prompt (this w))) w in
    let w := on_this (fun p => set_currentMessageNumber (S (_currentMessageNumber p)) p) w in
    let w := _setWorkingState asking w in
    let rq := {| api := backend;
                 searchPrompt := prompt;
                 timeoutMs := (or_60 (timeoutLength (_settings (this w))) * 1000)%Z;
                 abortSignal := _abortController (this w);
                 conversation := _conversation (this w);
                 currentMessageNumber := _currentMessageNumber (this w);
                 response := "";
                 settled := false |} in
    (None, set_requests (requests w ++ [rq]) w)
  end.

(** The [onProgress] callback of request [rid]. *)
Definition onProgress (rid : nat) (partialText : string) (w : World) : World :=
  match requests w !! rid with
  | None => w
  | Some rq =>
    if negb (_currentMessageNumber (this w) =? currentMessageNumber rq) then w
    else match _view (this w) with
         | Some v =>
           if visible v then
             postMessage (addResponse partialText)
               (set_requests (<[rid := set_local_response partialText rq]> (requests w)) w)
           else w
         | None => w
         end
  end.

Definition markSettled (rid : nat) (w : World) : World :=
  set_requests (alter set_settled rid (requests w)) w.

(** The continuation of request [rid] after [sendMessage] resolved with [res]. *)
Definition onFulfilled (rid : nat) (res : ChatMessage) (w : World) : string * World :=
  match requests w !! rid with
  | None => (""%string, w)
  | Some rq =>
    let w := markSettled rid w in
    let w := postMessage (setWorkingState idle) w in
    if negb (_currentMessageNumber (this w) =? currentMessageNumber rq) then (""%string, w)
    else
      let r := res_text res in
      let w := if or_false (keepConversation (_settings (this w))) then
                 on_this (set_conversation
                            (Some {| conversationId := res_conversationId res;
                                     parentMessageId := res_id res |})) w
               else w in
      saveResponse r w
  end.

(** The [catch] branch of request [rid]; [e] is the error as the template
    literal prints it. *)
Definition onRejected (rid : nat) (e : string) (w : World) : string * World :=
  match requests w !! rid with
  | None => (""%string, w)
  | Some rq =>
    let w := markSettled rid w in
    let w := postMessage (setWorkingState idle) w in
    let r := response rq +:+ nl +:+ nl +:+ "---" +:+ nl +:+ "[ERROR] " +:+ e in
    saveResponse r w
  end.

(** The search prompt built by [searchSelection]; [editor] is the selected
    text of the active editor, [None] without an active editor. *)
Definition buildSearchPrompt (s : Settings) (prompt : string) (editor : option string)
  : string :=
  match editor with
  | Some selectedText =>
    if negb (String.eqb selectedText "") then
      if or_false (selectedInsideCodeblock s) then
        prompt +:+ nl +:+ fence +:+ nl +:+ selectedText +:+ nl +:+ fence
      else
        prompt +:+ nl +:+ selectedText +:+ nl
    else prompt
  | None => prompt
  end.

(** [searchSelection] is given in the order of its statements: the lazy
    retry of the backend construction, the focus of the view, the search
    prompt and the call of [sendMessageAndGetResponse].  First
    [if (!this._chatGPTAPI) this._newAPI()]. *)
Definition ensureAPI (w : World) : World :=
  match _chatGPTAPI (this w) with
  | None => on_this _newAPI w
  | Some _ => w
  end.

(** Without a view the focus command is awaited, else the view is shown;
    [resolved] is the view the host resolves while the command runs ([None]
    if it resolves none). *)
Definition focusView (resolved : option WebviewView) (w : World) : World :=
  match _view (this w) with
  | None =>
    let w := emit FocusCommand w in
    match resolved with
    | Some v => resolveWebviewView v w
    | None => w
    end
  | Some _ => show w
  end.

(** From [this._response = ''] to the end. *)
Definition sendSelection (prompt : string) (editor : option string) (w : World)
  : World :=
  let w := on_this (set_response (Some ""%string)) w in
  let sp := buildSearchPrompt (_settings (this w)) prompt editor in
  let w := on_this (set_fullPrompt (Some sp)) w in
  snd (sendMessageAndGetResponse sp w).

(** The call as it runs when nothing gets between its statements: with a
    view there is no [await]; without one this is the run in which the only
    thing that happens during the focus command is the host resolving the
    view.  Runs in which other handlers get in between are those of the event
    loop below, through [suspendSelection] and [sendSelection].  [editor] is
    the text selected in the active editor ([None] without an active editor),
    [resolved] the host's answer to the focus command. *)
Definition searchSelection (prompt : option string) (editor : option string)
    (resolved : option WebviewView) (w : World) : World :=
  let w := on_this (set_prompt prompt) w in
  let prompt := match prompt with
                | Some s => s
                | None => ""%string
                end in
  sendSelection prompt editor (focusView resolved (ensureAPI w)).

(** [searchSelection] without a view, up to the [await] of the focus
    command: the prompt is stored, the backend construction retried and the
    command issued; the handlers of other events run before the call resumes,
    with [sendSelection] on its local [prompt]. *)
Definition suspendSelection (prompt : option string) (w : World) : World :=
  let w := on_this (set_prompt prompt) w in
  emit FocusCommand (ensureAPI w).

(** [abort]: tell the panel [idle], abort the live controller, and replace
    it by a new one. *)
Definition abort (w : World) : World :=
  let w := postMessage (setWorkingState idle) w in
  let w := set_controllers (<[_abortController (this w) := true]> (controllers w)) w in
  let a := length (controllers w) in
  on_this (set_abortController a) (set_controllers (controllers w ++ [false]) w).

(** The provider as its constructor leaves it, with the one
    [AbortController] of the field initialiser. *)
Definition constructor : World :=
  {| this := {| _view := None; _chatGPTAPI := None; _conversation := None;
                _abortController := 0; _response := None; _prompt := None;
                _fullPrompt := None; _currentMessageNumber := 0;
                _workingState := idle;
                _settings := {| selectedInsideCodeblock := Some false;
                                keepConversation := Some true;
                                timeoutLength := Some 60%Z |};
                _authInfo := None |};
     controllers := [false];
     requests := [];
     effects := [] |}.

(** ** Configuration and the handlers registered by [activate] *)

(** The [chatgpt] section of the workspace configuration, as [config.get]
    returns its keys. *)
Record Configuration := {
  cfg_mode : option string;
  cfg_apiKey : option string;
  cfg_accessToken : option string;
  cfg_proxyUrl : option string;
  cfg_customProxyUrl : option string;
  cfg_selectedInsideCodeblock : option bool;
  cfg_keepConversation : option bool;
  cfg_timeoutLength : option Z
}.

(** The object literal passed to [setAuthenticationInfo]. *)
Definition authInfoOf (config : Configuration) : AuthInfo :=
  {| mode := cfg_mode config;
     apiKey := cfg_apiKey config;
     accessToken := cfg_accessToken config;
     proxyUrl := if is_str (cfg_proxyUrl config) "Custom"
                 then cfg_customProxyUrl config
                 else cfg_proxyUrl config |}.

Definition no_patch : Settings :=
  {| selectedInsideCodeblock := None; keepConversation := None; timeoutLength := None |}.

(** [activate]: the provider is constructed and configured. *)
Definition activate (config : Configuration) : World :=
  let w := setAuthenticationInfo (authInfoOf config) constructor in
  setSettings
    {| selectedInsideCodeblock := Some (or_false (cfg_selectedInsideCodeblock config));
       keepConversation := Some (or_false (cfg_keepConversation config));
       timeoutLength := Some (or_60 (cfg_timeoutLength config)) |} w.

(** The [onDidChangeConfiguration] listener; [affectsConfiguration] is the
    method of the event, [config] the configuration read afterwards. *)
Definition onDidChangeConfiguration (affectsConfiguration : string -> bool)
    (config : Configuration) (w : World) : World :=
  if affectsConfiguration "chatgpt.mode"
     || affectsConfiguration "chatgpt.apiKey"
     || affectsConfiguration "chatgpt.accessToken"
     || affectsConfiguration "chatgpt.proxyUrl"
  then resetConversation (setAuthenticationInfo (authInfoOf config) w)
  else if affectsConfiguration "chatgpt.selectedInsideCodeblock" then
    setSettings
      {| selectedInsideCodeblock := Some (or_false (cfg_selectedInsideCodeblock config));
         keepConversation := None; timeoutLength := None |} w
  else if affectsConfiguration "chatgpt.keepConversation" then
    setSettings
      {| selectedInsideCodeblock := None;
         keepConversation := Some (or_false (cfg_keepConversation config));
         timeoutLength := None |} w
  else if affectsConfiguration "chatgpt.timeoutLength" then
    setSettings
      {| selectedInsideCodeblock := None; keepConversation := None;
         timeoutLength := Some (or_60 (cfg_timeoutLength config)) |} w
  else w.

(** ** The event loop *)

(** What can happen to an activated extension: host events, webview
    messages, commands, and the callbacks of outstanding backend calls.
    [Prompt] is a call of [searchSelection] that runs to the backend call
    with nothing in between; [PromptSuspended] and [PromptResumed] are the two
    halves of a call that awaits the focus command, between which other
    events take place.  The loop does not record which calls are suspended:
    a resumption is possible at any time, so the runs of the program are
    among the runs of the loop. *)
Inductive Event :=
| ConfigurationChanged (affectsConfiguration : string -> bool) (config : Configuration)
| ViewResolved (webviewView : WebviewView)
| VisibilityChanged (b : bool)
| WebviewLoaded
| Prompt (prompt : option string) (editor : option string) (resolved : option WebviewView)
| Abort
| ResetConversation
| Progress (rid : nat) (partialText : string)
| Fulfilled (rid : nat) (res : ChatMessage)
| Rejected (rid : nat) (e : string)
| PromptSuspended (prompt : option string)
| PromptResumed (prompt : string) (editor : option string).

(** A backend call reports progress and settles only while it is
    outstanding, and settles once. *)
Definition outstanding (rid : nat) (w : World) : bool :=
  match requests w !! rid with
  | Some rq => negb (settled rq)
  | None => false
  end.

Definition step (w : World) (ev : Event) : World :=
  match ev with
  | ConfigurationChanged affects config => onDidChangeConfiguration affects config w
  | ViewResolved v => resolveWebviewView v w
  | VisibilityChanged b =>
    match _view (this w) with
    | Some _ => on_this (set_view (Some {| visible := b |})) w
    | None => w
    end
  | WebviewLoaded => webviewLoaded w
  | Prompt prompt editor resolved => searchSelection prompt editor resolved w
  | Abort => abort w
  | ResetConversation => resetConversation w
  | Progress rid t => if outstanding rid w then onProgress rid t w else w
  | Fulfilled rid res => if outstanding rid w then snd (onFulfilled rid res w) else w
  | Rejected rid e => if outstanding rid w then snd (onRejected rid e w) else w
  | PromptSuspended prompt =>
    match _view (this w) with
    | None => suspendSelection prompt w
    | Some _ => w
    end
  | PromptResumed prompt editor => sendSelection prompt editor w
  end.

Definition run (evs : list Event) (w : World) : World := foldl step w evs.

Definition reachable (w : World) : Prop :=
  exists config evs, w = run evs (activate config).

(** The working state the panel shows: the value of the last
    [setWorkingState] message posted to it. *)
Fixpoint shownWorkingState (es : list Effect) : option WorkingState :=
  match es with
  | [] => None
  | e :: es =>
    match shownWorkingState es with
    | Some s => Some s
    | None => match e with
              | Posted (setWorkingState s) => Some s
              | _ => None
              end
    end
  end.

(** ** Notions used in the statements *)

(** The backend [_newAPI] constructs from the stored authentication info,
    if it constructs one. *)
Definition constructed (a : option AuthInfo) : option ChatBackend :=
  _chatGPTAPI (_newAPI
    {| _view := None; _chatGPTAPI := None; _conversation := None;
       _abortController := 0; _response := None; _prompt := None;
       _fullPrompt := None; _currentMessageNumber := 0; _workingState := idle;
       _settings := no_patch; _authInfo := a |}).

(** What [searchSelection] does before it builds the search prompt. *)
Definition prepared (prompt : option string) (resolved : option WebviewView)
    (w : World) : World :=
  focusView resolved (ensureAPI (on_this (set_prompt prompt) w)).

(** Whether a configuration change touches an authentication key. *)
Definition affectsAuth (affectsConfiguration : string -> bool) : bool :=
  affectsConfiguration "chatgpt.mode"
  || affectsConfiguration "chatgpt.apiKey"
  || affectsConfiguration "chatgpt.accessToken"
  || affectsConfiguration "chatgpt.proxyUrl".

(** What holds in every state the extension can be in: the live abort
    controller has not been signalled; and while no backend has been
    constructed, the stored authentication info cannot construct one, the
    working-state field is [idle] and the panel was never told [asking]. *)
Record invariant (w : World) : Prop := {
  inv_live : controllers w !! _abortController (this w) = Some false;
  inv_retry : _chatGPTAPI (this w) = None -> constructed (_authInfo (this w)) = None;
  inv_idle : _chatGPTAPI (this w) = None -> _workingState (this w) = idle;
  inv_quiet : _chatGPTAPI (this w) = None ->
              Posted (setWorkingState asking) ∉ effects w
}.

(** ** Sample inputs *)

Definition sampleConfig : Configuration :=
  {| cfg_mode := Some "ChatGPTAPI"%string;
     cfg_apiKey := Some "sk-1"%string;
     cfg_accessToken := None;
     cfg_proxyUrl := None;
     cfg_customProxyUrl := None;
     cfg_selectedInsideCodeblock := Some true;
     cfg_keepConversation := Some true;
     cfg_timeoutLength := Some 30%Z |}.

Definition emptyConfig : Configuration :=
  {| cfg_mode := None; cfg_apiKey := None; cfg_accessToken := None;
     cfg_proxyUrl := None; cfg_customProxyUrl := None;
     cfg_selectedInsideCodeblock := None; cfg_keepConversation := None;
     cfg_timeoutLength := None |}.

Definition panel : WebviewView := {| visible := true |}.

Definition resA : ChatMessage :=
  {| res_text := "answer A"; res_conversationId := "conv-A"; res_id := "msg-A" |}.

Definition resB : ChatMessage :=
  {| res_text := "answer B"; res_conversationId := "conv-B"; res_id := "msg-B" |}.

Definition affects (key : string) : string -> bool := String.eqb key.

Definition promptA : Event := Prompt (Some "A"%string) None None.
Definition promptB : Event := Prompt (Some "B"%string) None None.

Definition rotatedKey : Configuration :=
  {| cfg_mode := Some "ChatGPTAPI"%string;
     cfg_apiKey := Some "sk-2"%string;
     cfg_accessToken := None;
     cfg_proxyUrl := None;
     cfg_customProxyUrl := None;
     cfg_selectedInsideCodeblock := Some true;
     cfg_keepConversation := Some true;
     cfg_timeoutLength := Some 30%Z |}.

Definition keepOff : Configuration :=
  {| cfg_mode := Some "ChatGPTAPI"%string;
     cfg_apiKey := Some "sk-1"%string;
     cfg_accessToken := None;
     cfg_proxyUrl := None;
     cfg_customProxyUrl := None;
     cfg_selectedInsideCodeblock := Some true;
     cfg_keepConversation := Some false;
     cfg_timeoutLength := Some 30%Z |}.

Definition clearedKey : Configuration :=
  {| cfg_mode := Some "ChatGPTAPI"%string;
     cfg_apiKey := Some ""%string;
     cfg_accessToken := None;
     cfg_proxyUrl := None;
     cfg_customProxyUrl := None;
     cfg_selectedInsideCodeblock := Some true;
     cfg_keepConversation := Some true;
     cfg_timeoutLength := Some 30%Z |}.

(** ** Webview messages and commands *)

(** The listener of [onDidReceiveMessage]: [type] and [value] are the
    fields of the message; the second component is the text handed to
    [insertSnippet], when there is an active editor to insert it into. *)
Definition onDidReceiveMessage (type : string) (value : option string)
    (editor : option string) (resolved : option WebviewView) (w : World)
  : World * option (option string) :=
  if String.eqb type "webviewLoaded" then (webviewLoaded w, None)
  else if String.eqb type "codeSelected" then
    (w, match editor with
        | Some _ => Some value
        | None => None
        end)
  else if String.eqb type "prompt" then
    (searchSelection value editor resolved w, None)
  else if String.eqb type "abort" then (abort w, None)
  else (w, None).

(** The [chatgpt.ask] command; [value] is what the input box resolves to,
    [None] when it was dismissed. *)
Definition ask (value : option string) (editor : option string)
    (resolved : option WebviewView) (w : World) : World :=
  match value with
  | Some v => searchSelection (Some v) editor resolved w
  | None => w
  end.

(** [commandHandler]: the prompt is the configured prefix of the command,
    [None] when the key is not set. *)
Definition commandHandler (prefixes : string -> option string) (command : string)
    (editor : option string) (resolved : option WebviewView) (w : World) : World :=
  searchSelection (prefixes command) editor resolved w.

(** ** Further notions used in the statements *)

(** The credentials that let [_newAPI] construct the backend [b]. *)
Definition complete (a : AuthInfo) (b : ChatBackend) : Prop :=
  (mode a = Some "ChatGPTAPI"%string
   /\ exists k, apiKey a = Some k /\ k <> ""%string /\ b = ChatGPTAPI k)
  \/ (mode a = Some "ChatGPTUnofficialProxyAPI"%string
      /\ exists t u, accessToken a = Some t /\ t <> ""%string
                     /\ proxyUrl a = Some u /\ u <> ""%string
                     /\ b = ChatGPTUnofficialProxyAPI t u).

(** The events that restart the message numbering. *)
Definition resets (ev : Event) : bool :=
  match ev with
  | ConfigurationChanged affectsConfiguration _ => affectsAuth affectsConfiguration
  | ResetConversation => true
  | _ => false
  end.

(** What every request of a reachable state satisfies: it holds the signal
    of the live controller or of an earlier one, and its generation is at
    least 1. *)
Definition request_ok (w : World) (rq : Request) : Prop :=
  abortSignal rq <= _abortController (this w) /\ 1 <= currentMessageNumber rq.

(** More of what holds in every reachable state: the live controller is
    the last one allocated and all earlier ones are aborted; the requests are
    as [request_ok] says; the settings have all three fields, with a timeout
    other than 0; and without a backend there is neither a request nor a
    conversation. *)
Record shape (w : World) : Prop := {
  shape_last : S (_abortController (this w)) = length (controllers w);
  shape_old : forall i, i < _abortController (this w) -> controllers w !! i = Some true;
  shape_requests : Forall (request_ok w) (requests w);
  shape_settings : exists s k n,
      _settings (this w)
      = {| selectedInsideCodeblock := Some s; keepConversation := Some k;
           timeoutLength := Some n |}
      /\ n <> 0%Z;
  shape_nobackend : _chatGPTAPI (this w) = None ->
                    requests w = [] /\ _conversation (this w) = None
}.

(** While nothing restarts the numbering, the requests carry the
    generations 1, 2, ... in the order of their dispatch and the counter is
    the last of them. *)
Record numbered (w : World) : Prop := {
  numbered_gens : currentMessageNumber <$> requests w = seq 1 (length (requests w));
  numbered_current : _currentMessageNumber (this w) = length (requests w);
  numbered_nobackend : _chatGPTAPI (this w) = None -> requests w = []
}.

Definition proxyConfig : Configuration :=
  {| cfg_mode := Some "ChatGPTUnofficialProxyAPI"%string;
     cfg_apiKey := None;
     cfg_accessToken := Some "token"%string;
     cfg_proxyUrl := Some "Custom"%string;
     cfg_customProxyUrl := Some "https://proxy.example/api"%string;
     cfg_selectedInsideCodeblock := None;
     cfg_keepConversation := None;
     cfg_timeoutLength := Some 0%Z |}.

(** What the working-state field records in a reachable state: whether a
    backend call has ever been issued. *)
Definition field_tracks_requests (w : World) : Prop :=
  _workingState (this w) = match requests w with
                           | [] => idle
                           | _ :: _ => asking
                           end.

(** Without a view the trace holds nothing but focus commands. *)
Definition silent_without_view (w : World) : Prop :=
  _view (this w) = None -> Forall (fun e => e = FocusCommand) (effects w).

(** * Properties *)

(** ** Proof tools *)

Ltac open_world w :=
  let p := fresh "p" in
  let v := fresh "view" in
  let b := fresh "backend" in
  destruct w as [p ? ? ?]; destruct p as [v b ? ? ? ? ? ? ? ? ?]; destruct v, b.

Ltac unfold_handlers :=
  unfold step, sendSelection, focusView, sendMessageAndGetResponse,
    saveResponse, _setWorkingState, webviewLoaded, abort, resetConversation,
    outstanding, onProgress, onFulfilled, onRejected, markSettled, setSettings,
    getSettings, resolveWebviewView, postMessage, show in *.

Ltac split_cases :=
  repeat (case_match; cbn -[buildSearchPrompt noApiResponse] in *);
  subst; cbn -[buildSearchPrompt noApiResponse] in *.

(** For the handlers that do not construct a backend. *)
Ltac crunch :=
  unfold_handlers; cbn -[buildSearchPrompt noApiResponse] in *; split_cases.

Ltac not_posted :=
  rewrite ?elem_of_app, ?list_elem_of_singleton, ?elem_of_nil in *;
  intuition (try discriminate; try congruence).

(** ** Constructing the backend *)

Section NewAPI.
Variable p : Provider.

Lemma newAPI_view : _view (_newAPI p) = _view p.
Proof. unfold _newAPI; cbn; repeat case_match; cbn; congruence. Qed.

Lemma newAPI_settings : _settings (_newAPI p) = _settings p.
Proof. unfold _newAPI; cbn; repeat case_match; cbn; congruence. Qed.

Lemma newAPI_workingState : _workingState (_newAPI p) = _workingState p.
Proof. unfold _newAPI; cbn; repeat case_match; cbn; congruence. Qed.

Lemma newAPI_authInfo : _authInfo (_newAPI p) = _authInfo p.
Proof. unfold _newAPI; cbn; repeat case_match; cbn; congruence. Qed.

Lemma newAPI_abortController : _abortController (_newAPI p) = _abortController p.
Proof. unfold _newAPI; cbn; repeat case_match; cbn; congruence. Qed.

Lemma newAPI_prompt : _prompt (_newAPI p) = _prompt p.
Proof. unfold _newAPI; cbn; repeat case_match; cbn; congruence. Qed.

Lemma newAPI_response : _response (_newAPI p) = _response p.
Proof. unfold _newAPI; cbn; repeat case_match; cbn; congruence. Qed.

Lemma newAPI_fullPrompt : _fullPrompt (_newAPI p) = _fullPrompt p.
Proof. unfold _newAPI; cbn; repeat case_match; cbn; congruence. Qed.

(** Rebuilding clears the conversation and restarts the numbering. *)
Lemma newAPI_conversation : _conversation (_newAPI p) = None.
Proof. unfold _newAPI; cbn; repeat case_match; cbn; congruence. Qed.

Lemma newAPI_currentMessageNumber : _currentMessageNumber (_newAPI p) = 0.
Proof. unfold _newAPI; cbn; repeat case_match; cbn; congruence. Qed.

(** A backend that cannot be constructed leaves the previous one in place. *)
Lemma newAPI_chatGPTAPI :
  _chatGPTAPI (_newAPI p) =
  match constructed (_authInfo p) with
  | Some b => Some b
  | None => _chatGPTAPI p
  end.
Proof.
  unfold constructed, _newAPI; cbn.
  destruct (_authInfo p) as [a|]; cbn; [|reflexivity].
  repeat case_match; cbn in *; congruence.
Qed.
End NewAPI.

Create Rewrite HintDb provider.

#[global] Hint Rewrite newAPI_view newAPI_settings newAPI_workingState newAPI_authInfo
  newAPI_abortController newAPI_prompt newAPI_response newAPI_fullPrompt
  newAPI_conversation newAPI_currentMessageNumber newAPI_chatGPTAPI : provider.

(** The lazy retry only touches the provider, and there only the backend,
    the conversation and the message number. *)
Section EnsureAPI.
Variable w : World.

Lemma ensureAPI_some b : _chatGPTAPI (this w) = Some b -> ensureAPI w = w.
Proof. unfold ensureAPI. by intros ->. Qed.

Lemma ensureAPI_controllers : controllers (ensureAPI w) = controllers w.
Proof. unfold ensureAPI. by destruct (_chatGPTAPI (this w)). Qed.

Lemma ensureAPI_requests : requests (ensureAPI w) = requests w.
Proof. unfold ensureAPI. by destruct (_chatGPTAPI (this w)). Qed.

Lemma ensureAPI_effects : effects (ensureAPI w) = effects w.
Proof. unfold ensureAPI. by destruct (_chatGPTAPI (this w)). Qed.

Lemma ensureAPI_view : _view (this (ensureAPI w)) = _view (this w).
Proof.
  unfold ensureAPI. destruct (_chatGPTAPI (this w)); [done|].
  cbn [this on_this]. apply newAPI_view.
Qed.

Lemma ensureAPI_settings : _settings (this (ensureAPI w)) = _settings (this w).
Proof.
  unfold ensureAPI. destruct (_chatGPTAPI (this w)); [done|].
  cbn [this on_this]. apply newAPI_settings.
Qed.

Lemma ensureAPI_workingState :
  _workingState (this (ensureAPI w)) = _workingState (this w).
Proof.
  unfold ensureAPI. destruct (_chatGPTAPI (this w)); [done|].
  cbn [this on_this]. apply newAPI_workingState.
Qed.

Lemma ensureAPI_authInfo : _authInfo (this (ensureAPI w)) = _authInfo (this w).
Proof.
  unfold ensureAPI. destruct (_chatGPTAPI (this w)); [done|].
  cbn [this on_this]. apply newAPI_authInfo.
Qed.

Lemma ensureAPI_abortController :
  _abortController (this (ensureAPI w)) = _abortController (this w).
Proof.
  unfold ensureAPI. destruct (_chatGPTAPI (this w)); [done|].
  cbn [this on_this]. apply newAPI_abortController.
Qed.

Lemma ensureAPI_chatGPTAPI :
  _chatGPTAPI (this (ensureAPI w)) =
  match _chatGPTAPI (this w) with
  | Some b => Some b
  | None => constructed (_authInfo (this w))
  end.
Proof.
  unfold ensureAPI. destruct (_chatGPTAPI (this w)) eqn:Hb; [done|].
  cbn [this on_this]. rewrite newAPI_chatGPTAPI, Hb.
  by destruct (constructed _).
Qed.
End EnsureAPI.

#[global] Hint Rewrite ensureAPI_controllers ensureAPI_requests ensureAPI_effects
  ensureAPI_view ensureAPI_settings ensureAPI_workingState ensureAPI_authInfo
  ensureAPI_abortController ensureAPI_chatGPTAPI : provider.

(** Focusing the view only touches the view and the trace. *)
Lemma focusView_frame resolved w :
  controllers (focusView resolved w) = controllers w
  /\ requests (focusView resolved w) = requests w
  /\ _settings (this (focusView resolved w)) = _settings (this w)
  /\ _chatGPTAPI (this (focusView resolved w)) = _chatGPTAPI (this w)
  /\ _authInfo (this (focusView resolved w)) = _authInfo (this w)
  /\ _workingState (this (focusView resolved w)) = _workingState (this w)
  /\ _abortController (this (focusView resolved w)) = _abortController (this w).
Proof. open_world w; destruct resolved; cbn; repeat split. Qed.

Lemma searchSelection_prepared prompt editor resolved w :
  searchSelection prompt editor resolved w
  = sendSelection (default ""%string prompt) editor (prepared prompt resolved w).
Proof. by destruct prompt. Qed.

Lemma prepared_frame prompt resolved w :
  controllers (prepared prompt resolved w) = controllers w
  /\ requests (prepared prompt resolved w) = requests w
  /\ _settings (this (prepared prompt resolved w)) = _settings (this w)
  /\ _abortController (this (prepared prompt resolved w)) = _abortController (this w)
  /\ _chatGPTAPI (this (prepared prompt resolved w)) =
     match _chatGPTAPI (this w) with
     | Some b => Some b
     | None => constructed (_authInfo (this w))
     end.
Proof.
  unfold prepared.
  destruct (focusView_frame resolved (ensureAPI (on_this (set_prompt prompt) w)))
    as (-> & -> & -> & -> & _ & _ & ->).
  autorewrite with provider. open_world w; cbn; repeat split.
Qed.

(** Without a view the suspended call has done what [searchSelection] does
    before it builds the search prompt, with no view resolved yet. *)
Lemma suspendSelection_prepared prompt w :
  _view (this w) = None -> suspendSelection prompt w = prepared prompt None w.
Proof.
  intros Hv. unfold suspendSelection, prepared, focusView. cbv zeta.
  rewrite ensureAPI_view. cbn [this on_this set_prompt _view]. by rewrite Hv.
Qed.

Lemma prepared_workingState prompt resolved w :
  _workingState (this (prepared prompt resolved w)) = _workingState (this w).
Proof.
  unfold prepared.
  destruct (focusView_frame resolved (ensureAPI (on_this (set_prompt prompt) w)))
    as (_ & _ & _ & _ & _ & -> & _).
  autorewrite with provider. open_world w; reflexivity.
Qed.

Lemma prepared_with_view prompt resolved w v :
  _view (this w) = Some v ->
  effects (prepared prompt resolved w) = effects w ++ [Shown]
  /\ _view (this (prepared prompt resolved w)) = Some v.
Proof.
  intros Hv. unfold prepared, focusView, show.
  rewrite !ensureAPI_view. cbn [this on_this set_prompt _view]. rewrite Hv.
  cbn [emit effects this]. rewrite ensureAPI_effects, ensureAPI_view.
  cbn [this on_this set_prompt _view effects]. auto.
Qed.


(** ** Building the search prompt *)

Lemma sendSelection_fullPrompt prompt editor w :
  _fullPrompt (this (sendSelection prompt editor w))
  = Some (buildSearchPrompt (_settings (this w)) prompt editor).
Proof. open_world w; crunch; reflexivity. Qed.

Lemma sendSelection_chatGPTAPI prompt editor w :
  _chatGPTAPI (this (sendSelection prompt editor w)) = _chatGPTAPI (this w).
Proof. open_world w; crunch; reflexivity. Qed.

(** With a backend, [sendSelection] issues one backend call: for the prompt
    it stored, with the signal of the live abort controller and the stored
    conversation. *)
Lemma sendSelection_sends prompt editor w b :
  _chatGPTAPI (this w) = Some b ->
  exists rq,
    requests (sendSelection prompt editor w) = requests w ++ [rq]
    /\ Some (searchPrompt rq) = _fullPrompt (this (sendSelection prompt editor w))
    /\ abortSignal rq = _abortController (this w)
    /\ conversation rq = _conversation (this w)
    /\ controllers (sendSelection prompt editor w) = controllers w.
Proof.
  intros Hb. open_world w; cbn in Hb; simplify_eq.
  all: crunch; eexists; repeat split.
Qed.

Lemma searchSelection_fullPrompt prompt editor resolved w :
  _fullPrompt (this (searchSelection prompt editor resolved w))
  = Some (buildSearchPrompt (_settings (this w)) (default ""%string prompt) editor).
Proof.
  rewrite searchSelection_prepared, sendSelection_fullPrompt.
  by destruct (prepared_frame prompt resolved w) as (_ & _ & -> & _).
Qed.

(** What [searchSelection] hands to the backend is the prompt it stored. *)
Lemma searchSelection_sends_fullPrompt prompt editor resolved w b :
  _chatGPTAPI (this (searchSelection prompt editor resolved w)) = Some b ->
  exists rq,
    requests (searchSelection prompt editor resolved w) = requests w ++ [rq]
    /\ Some (searchPrompt rq) = _fullPrompt (this (searchSelection prompt editor resolved w)).
Proof.
  rewrite searchSelection_prepared, sendSelection_chatGPTAPI. intros Hb.
  destruct (sendSelection_sends (default ""%string prompt) editor _ _ Hb)
    as (rq & Hrq & Hsp & _).
  exists rq. rewrite Hrq.
  by destruct (prepared_frame prompt resolved w) as (_ & -> & _).
Qed.

(** C5: the effective prompt.  With a non-empty selection it is the prompt, a
    newline and the selection inside a fenced code block when
    [selectedInsideCodeblock] is on, and prompt, newline, selection, newline
    when it is off; without an editor or with an empty selection it is the raw
    prompt.  This is the prompt stored in [_fullPrompt] and the one the
    backend call receives. *)
Theorem effective_prompt (w : World) (prompt selection : string)
    (resolved : option WebviewView) :
  selection <> ""%string ->
  _fullPrompt (this (searchSelection (Some prompt) (Some selection) resolved w))
  = Some (if or_false (selectedInsideCodeblock (getSettings w))
          then prompt +:+ nl +:+ "```" +:+ nl +:+ selection +:+ nl +:+ "```"
          else prompt +:+ nl +:+ selection +:+ nl)
  /\ _fullPrompt (this (searchSelection (Some prompt) None resolved w)) = Some prompt
  /\ _fullPrompt (this (searchSelection (Some prompt) (Some ""%string) resolved w))
     = Some prompt
  /\ forall editor b,
       _chatGPTAPI (this (searchSelection (Some prompt) editor resolved w)) = Some b ->
       exists rq,
         requests (searchSelection (Some prompt) editor resolved w) = requests w ++ [rq]
         /\ Some (searchPrompt rq)
            = _fullPrompt (this (searchSelection (Some prompt) editor resolved w)).
Proof.
  intros Hsel.
  rewrite !searchSelection_fullPrompt. unfold getSettings, buildSearchPrompt. cbn.
  assert (String.eqb selection "" = false) as -> by (apply String.eqb_neq; exact Hsel).
  cbn. repeat split.
  intros editor b. apply searchSelection_sends_fullPrompt.
Qed.

Lemma effective_prompt_witness :
  _fullPrompt (this (searchSelection (Some "fix"%string) (Some "x=1"%string) None
                       (activate sampleConfig)))
  = Some ("fix" +:+ nl +:+ "```" +:+ nl +:+ "x=1" +:+ nl +:+ "```")
  /\ _fullPrompt (this (searchSelection (Some "fix"%string) (Some "x=1"%string) None
                          (activate emptyConfig)))
     = Some ("fix" +:+ nl +:+ "x=1" +:+ nl)
  /\ exists rq,
       requests (searchSelection (Some "fix"%string) (Some "x=1"%string) None
                   (activate sampleConfig))
       = requests (activate sampleConfig) ++ [rq]
       /\ Some (searchPrompt rq)
          = _fullPrompt (this (searchSelection (Some "fix"%string) (Some "x=1"%string) None
                                 (activate sampleConfig))).
Proof.
  split; [|split].
  - destruct (effective_prompt (activate sampleConfig) "fix" "x=1" None) as [H _];
      [discriminate | exact H].
  - destruct (effective_prompt (activate emptyConfig) "fix" "x=1" None) as [H _];
      [discriminate | exact H].
  - destruct (effective_prompt (activate sampleConfig) "fix" "x=1" None) as (_ & _ & _ & H);
      [discriminate |].
    exact (H (Some "x=1"%string) (ChatGPTAPI "sk-1") eq_refl).
Defined.

(** ** Invariants of the event loop *)

Lemma live_after_abort (cs : list bool) (a : nat) :
  (<[a := true]> cs ++ [false]) !! length (<[a := true]> cs) = Some false.
Proof. rewrite lookup_app_r by lia. by rewrite Nat.sub_diag. Qed.

Lemma invariant_constructor : invariant constructor.
Proof. split; cbn; try done. intros _. apply not_elem_of_nil. Qed.

Lemma invariant_setAuthenticationInfo a w :
  invariant w -> invariant (setAuthenticationInfo a w).
Proof.
  intros [H1 H2 H3 H4]. unfold setAuthenticationInfo.
  split; cbn -[_newAPI constructed]; autorewrite with provider;
    cbn -[_newAPI constructed]; auto.
  all: destruct (constructed (Some a)); try discriminate; auto.
Qed.

Lemma invariant_ensureAPI w : invariant w -> invariant (ensureAPI w).
Proof.
  intros [H1 H2 H3 H4].
  split; autorewrite with provider; auto.
  all: destruct (_chatGPTAPI (this w)); try discriminate; auto.
Qed.

Lemma invariant_setSettings s w : invariant w -> invariant (setSettings s w).
Proof. intros [H1 H2 H3 H4]. open_world w; split; cbn in *; auto. Qed.

Lemma invariant_set_prompt s w : invariant w -> invariant (on_this (set_prompt s) w).
Proof. intros [H1 H2 H3 H4]. open_world w; split; cbn in *; auto. Qed.

Lemma invariant_resetConversation w : invariant w -> invariant (resetConversation w).
Proof.
  intros [H1 H2 H3 H4]. open_world w; split; cbn in *; auto.
  all: intros; try discriminate; not_posted.
Qed.

Lemma invariant_focusView resolved w : invariant w -> invariant (focusView resolved w).
Proof.
  intros [H1 H2 H3 H4]. open_world w; destruct resolved; split; cbn in *; auto.
  all: intros; try discriminate; not_posted.
Qed.

Lemma invariant_sendSelection prompt editor w :
  invariant w -> invariant (sendSelection prompt editor w).
Proof.
  intros [H1 H2 H3 H4]. open_world w; split; crunch; auto.
  all: intros; try discriminate; not_posted.
Qed.

Lemma invariant_activate config : invariant (activate config).
Proof.
  apply invariant_setSettings, invariant_setAuthenticationInfo, invariant_constructor.
Qed.

Lemma invariant_step w ev : invariant w -> invariant (step w ev).
Proof.
  intros Hw. destruct ev.
  - cbn [step]. unfold onDidChangeConfiguration.
    repeat case_match; auto using invariant_setSettings, invariant_resetConversation,
      invariant_setAuthenticationInfo.
  - destruct Hw as [H1 H2 H3 H4]. open_world w; split; crunch; auto.
  - destruct Hw as [H1 H2 H3 H4]. open_world w; split; crunch; auto.
  - destruct Hw as [H1 H2 H3 H4]. open_world w; split; crunch; auto.
    all: intros; try discriminate.
    all: rewrite H3 by reflexivity; not_posted.
  - cbn [step]. rewrite searchSelection_prepared.
    apply invariant_sendSelection, invariant_focusView, invariant_ensureAPI,
      invariant_set_prompt, Hw.
  - destruct Hw as [H1 H2 H3 H4]. open_world w; split; crunch; auto.
    all: try apply live_after_abort.
    all: intros; try discriminate; not_posted.
  - cbn [step]. by apply invariant_resetConversation.
  - destruct Hw as [H1 H2 H3 H4]. open_world w; split; crunch; auto.
    all: intros; try discriminate; not_posted.
  - destruct Hw as [H1 H2 H3 H4]. open_world w; split; crunch; auto.
    all: intros; try discriminate; not_posted.
  - destruct Hw as [H1 H2 H3 H4]. open_world w; split; crunch; auto.
    all: intros; try discriminate; not_posted.
  - cbn [step]. destruct (_view (this w)) eqn:Hv; [exact Hw|].
    rewrite (suspendSelection_prepared _ _ Hv). unfold prepared.
    apply invariant_focusView, invariant_ensureAPI, invariant_set_prompt, Hw.
  - cbn [step]. by apply invariant_sendSelection.
Qed.

Lemma invariant_run evs : forall w, invariant w -> invariant (run evs w).
Proof.
  unfold run. induction evs as [|ev evs IH]; intros w Hw; cbn.
  - exact Hw.
  - apply IH, invariant_step, Hw.
Qed.

Lemma reachable_invariant w : reachable w -> invariant w.
Proof.
  intros (config & evs & ->). apply invariant_run, invariant_activate.
Qed.

Lemma reachable_step w ev : reachable w -> reachable (step w ev).
Proof.
  intros (config & evs & ->). exists config, (evs ++ [ev]).
  unfold run. by rewrite foldl_app.
Qed.

Lemma shownWorkingState_posted es s :
  shownWorkingState es = Some s -> Posted (setWorkingState s) ∈ es.
Proof.
  induction es as [|e es IH]; cbn; [discriminate|].
  destruct (shownWorkingState es) as [s'|].
  - intros [= ->]. right. by apply IH.
  - destruct e as [[]| |]; try discriminate. intros [= ->]. left.
Qed.

Lemma shownWorkingState_app es es' :
  shownWorkingState (es ++ es') =
  match shownWorkingState es' with
  | Some s => Some s
  | None => shownWorkingState es
  end.
Proof.
  induction es as [|e es IH]; cbn.
  - by destruct (shownWorkingState es').
  - rewrite IH. by destruct (shownWorkingState es').
Qed.

(** ** Prompting without a backend *)

Lemma sendSelection_no_backend prompt editor w :
  _chatGPTAPI (this w) = None ->
  _response (this (sendSelection prompt editor w)) = Some noApiResponse
  /\ requests (sendSelection prompt editor w) = requests w
  /\ _view (this (sendSelection prompt editor w)) = _view (this w)
  /\ effects (sendSelection prompt editor w)
     = effects w ++ match _view (this w) with
                    | Some _ => [Shown; Posted (addResponse noApiResponse)]
                    | None => []
                    end.
Proof.
  intros Hb. open_world w; cbn in Hb; simplify_eq.
  all: crunch; rewrite <- ?app_assoc, ?app_nil_r; repeat split.
Qed.

(** X17: while no backend has been constructed at all, a prompt gets the
    fixed API-key error as its response.  In every reachable state whose
    [_chatGPTAPI] is undefined, [sendMessageAndGetResponse] returns the
    literal; the part of [searchSelection] that runs after the focus command
    stores it in [_response], posts it when there is a view, issues no
    backend call, leaves the working-state field [idle] and the panel not
    shown [asking]; and so does the whole of [searchSelection] when there is
    a view, where the lazy retry of the construction fails again. *)
Theorem no_backend_prompt (w : World) (prompt : string) (editor : option string) :
  reachable w ->
  _chatGPTAPI (this w) = None ->
  (forall sp, fst (sendMessageAndGetResponse sp w) = Some noApiResponse)
  /\ _response (this (sendSelection prompt editor w)) = Some noApiResponse
  /\ _workingState (this (sendSelection prompt editor w)) = idle
  /\ shownWorkingState (effects (sendSelection prompt editor w)) <> Some asking
  /\ effects (sendSelection prompt editor w)
     = effects w ++ match _view (this w) with
                    | Some _ => [Shown; Posted (addResponse noApiResponse)]
                    | None => []
                    end
  /\ requests (sendSelection prompt editor w) = requests w
  /\ forall raw resolved v,
       _view (this w) = Some v ->
       _response (this (searchSelection raw editor resolved w)) = Some noApiResponse
       /\ _workingState (this (searchSelection raw editor resolved w)) = idle
       /\ shownWorkingState (effects (searchSelection raw editor resolved w)) <> Some asking
       /\ effects (searchSelection raw editor resolved w)
          = effects w ++ [Shown; Shown; Posted (addResponse noApiResponse)]
       /\ requests (searchSelection raw editor resolved w) = requests w.
Proof.
  intros Hr Hb.
  assert (forall w', reachable w' -> _chatGPTAPI (this w') = None ->
            _workingState (this w') = idle
            /\ shownWorkingState (effects w') <> Some asking) as Hquiet.
  { intros w' Hr' Hb'. destruct (reachable_invariant _ Hr') as [_ _ Hidle Hq].
    split; [auto|]. intros Hs. apply shownWorkingState_posted in Hs. exact (Hq Hb' Hs). }
  destruct (sendSelection_no_backend prompt editor w Hb) as (Hres & Hrq & _ & Heff).
  destruct (Hquiet (step w (PromptResumed prompt editor)) (reachable_step _ _ Hr))
    as [Hidle Hshown]; [cbn [step]; by rewrite sendSelection_chatGPTAPI|].
  cbn [step] in Hidle, Hshown.
  split; [|split; [|split; [|split; [|split; [|split]]]]]; auto.
  - intros sp. unfold sendMessageAndGetResponse. by rewrite Hb.
  - intros raw resolved v Hv.
    pose proof (reachable_invariant _ Hr) as [_ Hretry _ _].
    destruct (Hquiet (step w (Prompt raw editor resolved)) (reachable_step _ _ Hr))
      as [Hidle' Hshown'].
    { cbn [step]. rewrite searchSelection_prepared, sendSelection_chatGPTAPI.
      destruct (prepared_frame raw resolved w) as (_ & _ & _ & _ & ->).
      by rewrite Hb, (Hretry Hb). }
    cbn [step] in Hidle', Hshown'.
    split; [|split; [exact Hidle'|split; [exact Hshown'|]]].
    + rewrite searchSelection_prepared. apply sendSelection_no_backend.
      destruct (prepared_frame raw resolved w) as (_ & _ & _ & _ & ->).
      by rewrite Hb, (Hretry Hb).
    + rewrite searchSelection_prepared.
      assert (_chatGPTAPI (this (prepared raw resolved w)) = None) as Hb'.
      { destruct (prepared_frame raw resolved w) as (_ & _ & _ & _ & ->).
        by rewrite Hb, (Hretry Hb). }
      destruct (sendSelection_no_backend (default ""%string raw) editor _ Hb')
        as (_ & Hrq' & _ & Heff').
      destruct (prepared_frame raw resolved w) as (_ & Hrq'' & _).
      destruct (prepared_with_view raw resolved w v Hv) as (Heff'' & Hv').
      rewrite Heff', Hrq', Hrq'', Hv', Heff'', <- app_assoc. split; reflexivity.
Qed.

Lemma no_backend_prompt_witness :
  let w := step (activate emptyConfig) (ViewResolved panel) in
  _response (this (searchSelection (Some "hello"%string) None None w)) = Some noApiResponse
  /\ effects (searchSelection (Some "hello"%string) None None w)
     = [Shown; Shown; Posted (addResponse noApiResponse)]
  /\ effects (sendSelection "hello" None w) = [Shown; Posted (addResponse noApiResponse)].
Proof.
  intros w.
  destruct (no_backend_prompt w "hello" None) as (_ & _ & _ & _ & H1 & _ & H2).
  - exists emptyConfig, [ViewResolved panel]. reflexivity.
  - reflexivity.
  - destruct (H2 (Some "hello"%string) None panel eq_refl) as (H3 & _ & _ & H4 & _).
    split; [exact H3 | split; [exact H4 | exact H1]].
Defined.

(** ** Failure of a request *)

(** X18: when the backend call of a request fails with error [e], whatever
    the cause, the final response is the partial text of that request
    followed by the error trailer; it is stored in [_response]; the
    working-state field is not written; and with a panel, the provider posts
    [idle] as working state, shows the view and posts the final response, so
    that the last working state posted is [idle]. *)
Theorem request_failure (w : World) (rid : nat) (rq : Request) (e : string) :
  requests w !! rid = Some rq ->
  fst (onRejected rid e w)
  = response rq +:+ nl +:+ nl +:+ "---" +:+ nl +:+ "[ERROR] " +:+ e
  /\ _response (this (snd (onRejected rid e w))) = Some (fst (onRejected rid e w))
  /\ _workingState (this (snd (onRejected rid e w))) = _workingState (this w)
  /\ forall v, _view (this w) = Some v ->
       effects (snd (onRejected rid e w))
       = effects w ++ [Posted (setWorkingState idle); Shown;
                       Posted (addResponse (fst (onRejected rid e w)))]
       /\ shownWorkingState (effects (snd (onRejected rid e w))) = Some idle.
Proof.
  intros Hrq. unfold onRejected. rewrite Hrq.
  split; [reflexivity|]. split; [|split].
  - open_world w; reflexivity.
  - open_world w; reflexivity.
  - intros v Hv. open_world w; cbn in Hv; try discriminate.
    all: cbn; rewrite <- !app_assoc; cbn; split; [reflexivity|].
    all: rewrite shownWorkingState_app; reflexivity.
Qed.

Lemma request_failure_witness :
  let w := run [ViewResolved panel; promptA; Progress 0 "par"] (activate sampleConfig) in
  fst (onRejected 0 "Error: timed out" w)
  = "par" +:+ nl +:+ nl +:+ "---" +:+ nl +:+ "[ERROR] Error: timed out"
  /\ effects (snd (onRejected 0 "Error: timed out" w))
     = effects w ++ [Posted (setWorkingState idle); Shown;
                     Posted (addResponse (fst (onRejected 0 "Error: timed out" w)))].
Proof.
  intros w.
  destruct (request_failure w 0
              {| api := ChatGPTAPI "sk-1"; searchPrompt := "A"; timeoutMs := 30000;
                 abortSignal := 0; conversation := None; currentMessageNumber := 1;
                 response := "par"; settled := false |} "Error: timed out")
    as (H1 & _ & _ & H2).
  - reflexivity.
  - split; [exact H1 | exact (proj1 (H2 panel eq_refl))].
Defined.

(** ** Progress *)

(** C10: a progress chunk of a request whose generation is current is
    posted to the panel and becomes the partial text of the request exactly
    when the view exists and is visible; otherwise the callback changes
    nothing, and a later failure of the request carries the partial text from
    before the chunk. *)
Theorem progress_needs_visible_view (w : World) (rid : nat) (rq : Request)
    (partialText : string) :
  requests w !! rid = Some rq ->
  currentMessageNumber rq = _currentMessageNumber (this w) ->
  (forall v, _view (this w) = Some v -> visible v = true ->
     effects (onProgress rid partialText w) = effects w ++ [Posted (addResponse partialText)]
     /\ response <$> requests (onProgress rid partialText w) !! rid = Some partialText
     /\ this (onProgress rid partialText w) = this w)
  /\ (_view (this w) = None \/ (exists v, _view (this w) = Some v /\ visible v = false) ->
      onProgress rid partialText w = w
      /\ forall e, fst (onRejected rid e (onProgress rid partialText w))
                   = response rq +:+ nl +:+ nl +:+ "---" +:+ nl +:+ "[ERROR] " +:+ e).
Proof.
  intros Hrq Hgen. unfold onProgress. rewrite Hrq, Hgen, Nat.eqb_refl. cbn [negb].
  split.
  - intros v Hv Hvis. rewrite Hv, Hvis. unfold postMessage. cbn. rewrite Hv. cbn.
    split; [reflexivity|]. split; [|reflexivity].
    rewrite list_lookup_insert_eq by (eapply lookup_lt_Some; eauto). reflexivity.
  - intros Hhidden.
    assert (match _view (this w) with
            | Some v => if visible v then
                          postMessage (addResponse partialText)
                            (set_requests
                               (<[rid := set_local_response partialText rq]> (requests w)) w)
                        else w
            | None => w
            end = w) as ->.
    { destruct Hhidden as [-> | (v & -> & ->)]; reflexivity. }
    split; [reflexivity|]. intros e. unfold onRejected. rewrite Hrq. reflexivity.
Qed.

Lemma progress_needs_visible_view_witness :
  let shown := run [ViewResolved panel; promptA; Progress 0 "par"] (activate sampleConfig) in
  let hidden := step shown (VisibilityChanged false) in
  effects (onProgress 0 "partial" shown) = effects shown ++ [Posted (addResponse "partial")]
  /\ onProgress 0 "partial" hidden = hidden
  /\ fst (onRejected 0 "Error: x" (onProgress 0 "partial" hidden))
     = "par" +:+ nl +:+ nl +:+ "---" +:+ nl +:+ "[ERROR] Error: x".
Proof.
  intros shown hidden.
  pose (rq := {| api := ChatGPTAPI "sk-1"; searchPrompt := "A"; timeoutMs := 30000%Z;
                 abortSignal := 0; conversation := None; currentMessageNumber := 1;
                 response := "par"; settled := false |}).
  destruct (progress_needs_visible_view shown 0 rq "partial" eq_refl eq_refl) as [Hs _].
  destruct (progress_needs_visible_view hidden 0 rq "partial" eq_refl eq_refl) as [_ Hh].
  destruct (Hs panel eq_refl eq_refl) as (Hs1 & _).
  destruct Hh as [Hh1 Hh2].
  - right. exists {| visible := false |}. split; reflexivity.
  - split; [exact Hs1 | split; [exact Hh1 | exact (Hh2 "Error: x"%string)]].
Defined.

(** ** Abort *)

(** In a state that satisfies the invariant, the backend call issued for a
    prompt is given the signal of the live controller, which is not
    signalled. *)
Lemma dispatch_signal_live w prompt editor resolved b :
  invariant w ->
  _chatGPTAPI (this w) = Some b ->
  exists rq,
    requests (searchSelection prompt editor resolved w) = requests w ++ [rq]
    /\ abortSignal rq = _abortController (this w)
    /\ controllers (searchSelection prompt editor resolved w) !! abortSignal rq
       = Some false.
Proof.
  intros [Hlive _ _ _] Hb.
  rewrite searchSelection_prepared.
  destruct (prepared_frame prompt resolved w) as (Hcs & Hrq & _ & Ha & Hb').
  rewrite Hb in Hb'.
  destruct (sendSelection_sends (default ""%string prompt) editor _ _ Hb')
    as (rq & Hrq' & _ & Hsig & _ & Hcs').
  exists rq. rewrite Hrq', Hrq, Hcs', Hcs, Hsig, Ha. auto.
Qed.

(** In a state that satisfies the invariant, the backend call issued when
    [searchSelection] resumes is given the signal of the controller that is
    live then, which is not signalled. *)
Lemma resume_signal_live w prompt editor b :
  invariant w ->
  _chatGPTAPI (this w) = Some b ->
  exists rq,
    requests (sendSelection prompt editor w) = requests w ++ [rq]
    /\ abortSignal rq = _abortController (this w)
    /\ controllers (sendSelection prompt editor w) !! abortSignal rq = Some false.
Proof.
  intros [Hlive _ _ _] Hb.
  destruct (sendSelection_sends prompt editor w b Hb) as (rq & Hrq & _ & Hsig & _ & Hcs).
  exists rq. rewrite Hrq, Hcs, Hsig. auto.
Qed.

(** X19: [abort], in any reachable state and whatever the message number,
    posts [idle] as working state to the panel without writing the
    working-state field, signals the live abort
    controller (the requests, which hold its signal, are untouched and see it
    aborted), and installs a fresh controller that is not signalled.  The
    backend call of a prompt dispatched afterwards, at once or after further
    events, is given the signal of a controller that is not signalled: both
    when [searchSelection] runs through with a view and when it resumes after
    the focus command. *)
Theorem abort_replaces_controller (w : World) :
  reachable w ->
  (forall v, _view (this w) = Some v ->
     effects (abort w) = effects w ++ [Posted (setWorkingState idle)]
     /\ shownWorkingState (effects (abort w)) = Some idle)
  /\ _workingState (this (abort w)) = _workingState (this w)
  /\ controllers (abort w) !! _abortController (this w) = Some true
  /\ requests (abort w) = requests w
  /\ _abortController (this (abort w)) <> _abortController (this w)
  /\ controllers (abort w) !! _abortController (this (abort w)) = Some false
  /\ (forall evs prompt editor b,
        _chatGPTAPI (this (run evs (abort w))) = Some b ->
        exists rq,
          requests (sendSelection prompt editor (run evs (abort w)))
          = requests (run evs (abort w)) ++ [rq]
          /\ abortSignal rq = _abortController (this (run evs (abort w)))
          /\ controllers (sendSelection prompt editor (run evs (abort w)))
                !! abortSignal rq
             = Some false)
  /\ forall evs prompt editor resolved b v,
       _chatGPTAPI (this (run evs (abort w))) = Some b ->
       _view (this (run evs (abort w))) = Some v ->
       exists rq,
         requests (searchSelection prompt editor resolved (run evs (abort w)))
         = requests (run evs (abort w)) ++ [rq]
         /\ abortSignal rq = _abortController (this (run evs (abort w)))
         /\ controllers (searchSelection prompt editor resolved (run evs (abort w)))
               !! abortSignal rq
            = Some false.
Proof.
  intros Hr. pose proof (reachable_invariant _ Hr) as [Hlive _ _ _].
  pose proof (lookup_lt_Some _ _ _ Hlive) as Hlt.
  assert (forall evs, invariant (run evs (abort w))) as Hinv
    by (intros evs; apply invariant_run, (invariant_step w Abort), reachable_invariant, Hr).
  split; [|split; [|split; [|split; [|split; [|split; [|split]]]]]].
  - intros v Hv. open_world w; cbn in Hv; try discriminate.
    all: cbn; split; [reflexivity|]; rewrite shownWorkingState_app; reflexivity.
  - open_world w; reflexivity.
  - clear Hr Hinv. open_world w; cbn in *.
    all: rewrite lookup_app_l by (rewrite length_insert; lia).
    all: by rewrite list_lookup_insert_eq.
  - open_world w; reflexivity.
  - clear Hr Hinv. open_world w; cbn in *; rewrite length_insert; lia.
  - clear Hr Hinv. open_world w; cbn in *; apply live_after_abort.
  - intros evs prompt editor b Hb. by apply resume_signal_live with (b := b).
  - intros evs prompt editor resolved b v Hb _.
    by apply dispatch_signal_live with (b := b).
Qed.

Lemma abort_replaces_controller_witness :
  let w := run [ViewResolved panel; promptA] (activate sampleConfig) in
  effects (abort w) = effects w ++ [Posted (setWorkingState idle)]
  /\ controllers (abort w) !! _abortController (this w) = Some true
  /\ controllers (abort w) !! _abortController (this (abort w)) = Some false
  /\ (exists rq,
        requests (sendSelection "B" None (abort w)) = requests (abort w) ++ [rq]
        /\ abortSignal rq = _abortController (this (abort w))
        /\ controllers (sendSelection "B" None (abort w)) !! abortSignal rq = Some false)
  /\ exists rq,
       requests (searchSelection (Some "B"%string) None None (abort w))
       = requests (abort w) ++ [rq]
       /\ abortSignal rq = _abortController (this (abort w))
       /\ controllers (searchSelection (Some "B"%string) None None (abort w))
             !! abortSignal rq
          = Some false.
Proof.
  intros w.
  destruct (abort_replaces_controller w) as (H0 & _ & H1 & _ & _ & H2 & H3 & H4).
  - exists sampleConfig, [ViewResolved panel; promptA]. reflexivity.
  - split; [exact (proj1 (H0 panel eq_refl))|].
    split; [exact H1|]. split; [exact H2|]. split.
    + exact (H3 [] "B"%string None (ChatGPTAPI "sk-1") eq_refl).
    + exact (H4 [] (Some "B"%string) None None (ChatGPTAPI "sk-1") panel eq_refl eq_refl).
Defined.

(** ** Configuration changes *)

Lemma resetConversation_clears w :
  _conversation (this (resetConversation w)) = None
  /\ _currentMessageNumber (this (resetConversation w)) = 0
  /\ _prompt (this (resetConversation w)) = Some ""%string
  /\ _response (this (resetConversation w)) = Some ""%string
  /\ _fullPrompt (this (resetConversation w)) = Some ""%string
  /\ _chatGPTAPI (this (resetConversation w)) = _chatGPTAPI (this w)
  /\ _settings (this (resetConversation w)) = _settings (this w)
  /\ _authInfo (this (resetConversation w)) = _authInfo (this w).
Proof. open_world w; cbn; repeat split. Qed.

(** ** Generations and stale requests *)

(** A progress chunk of a request whose generation is no longer current
    changes nothing. *)
Lemma stale_progress_suppressed w rid rq partialText :
  requests w !! rid = Some rq ->
  currentMessageNumber rq <> _currentMessageNumber (this w) ->
  onProgress rid partialText w = w.
Proof.
  intros Hrq Hgen. unfold onProgress. rewrite Hrq.
  destruct (Nat.eqb_spec (_currentMessageNumber (this w)) (currentMessageNumber rq));
    [congruence | reflexivity].
Qed.

(** The result of a request whose generation is no longer current leaves
    the provider as it is and publishes no response; what it does post is
    the [idle] working state. *)
Lemma stale_result_discarded w rid rq res :
  requests w !! rid = Some rq ->
  currentMessageNumber rq <> _currentMessageNumber (this w) ->
  fst (onFulfilled rid res w) = ""%string
  /\ this (snd (onFulfilled rid res w)) = this w
  /\ effects (snd (onFulfilled rid res w))
     = effects w ++ match _view (this w) with
                    | Some _ => [Posted (setWorkingState idle)]
                    | None => []
                    end.
Proof.
  intros Hrq Hgen. unfold onFulfilled. rewrite Hrq.
  assert (_currentMessageNumber (this (postMessage (setWorkingState idle) (markSettled rid w)))
          = _currentMessageNumber (this w)) as -> by (open_world w; reflexivity).
  destruct (Nat.eqb_spec (_currentMessageNumber (this w)) (currentMessageNumber rq));
    [congruence|].
  open_world w; cbn; rewrite ?app_nil_r; repeat split.
Qed.

(** The result of a request whose generation is current replaces the
    conversation when [keepConversation] is on and leaves it as it is when it
    is off. *)
Lemma current_result_conversation w rid rq res :
  requests w !! rid = Some rq ->
  currentMessageNumber rq = _currentMessageNumber (this w) ->
  _conversation (this (snd (onFulfilled rid res w)))
  = if or_false (keepConversation (_settings (this w)))
    then Some {| conversationId := res_conversationId res; parentMessageId := res_id res |}
    else _conversation (this w).
Proof.
  intros Hrq Hgen. unfold onFulfilled. rewrite Hrq.
  assert (_currentMessageNumber (this (postMessage (setWorkingState idle) (markSettled rid w)))
          = _currentMessageNumber (this w)) as -> by (open_world w; reflexivity).
  rewrite Hgen, Nat.eqb_refl. open_world w; cbn; by destruct (or_false _).
Qed.

(** No handler takes the working-state field from [asking] back to [idle]. *)
Lemma workingState_field_stays_asking w ev :
  _workingState (this w) = asking -> _workingState (this (step w ev)) = asking.
Proof.
  intros Hw. destruct ev.
  - cbn [step]. unfold onDidChangeConfiguration.
    repeat case_match.
    2-5: open_world w; exact Hw.
    transitivity (_workingState (this (setAuthenticationInfo (authInfoOf config) w))).
    + generalize (setAuthenticationInfo (authInfoOf config) w).
      intros w'. open_world w'; reflexivity.
    + unfold setAuthenticationInfo. cbn [this on_this].
      rewrite newAPI_workingState. exact Hw.
  - open_world w; exact Hw.
  - open_world w; exact Hw.
  - open_world w; exact Hw.
  - cbn [step]. rewrite searchSelection_prepared.
    assert (_workingState (this (prepared prompt resolved w)) = asking) as Hp.
    { unfold prepared.
      destruct (focusView_frame resolved (ensureAPI (on_this (set_prompt prompt) w)))
        as (_ & _ & _ & _ & _ & -> & _).
      autorewrite with provider. open_world w; exact Hw. }
    revert Hp. generalize (prepared prompt resolved w). clear. intros w Hw.
    open_world w; cbn in Hw; crunch; congruence.
  - open_world w; exact Hw.
  - open_world w; exact Hw.
  - open_world w; cbn in Hw; crunch; congruence.
  - open_world w; cbn in Hw; crunch; congruence.
  - open_world w; cbn in Hw; crunch; congruence.
  - cbn [step]. destruct (_view (this w)) eqn:Hv; [exact Hw|].
    by rewrite (suspendSelection_prepared _ _ Hv), prepared_workingState.
  - open_world w; cbn in Hw; crunch; congruence.
Qed.

(** ** Where the code departs from the specification *)

(** C1 (not met by the code): after the only request has settled the panel
    is told [idle], but the working-state field is still [asking], and a
    reloaded webview is told [asking] again; and the settlement of a stale
    request tells the panel [idle] while the request of the current
    generation is outstanding. *)
Theorem idle_transition_misses_field :
  let w1 := run [ViewResolved panel; promptA; Fulfilled 0 resA] (activate sampleConfig) in
  let w2 := run [ViewResolved panel; promptA; promptB; Fulfilled 0 resA]
                (activate sampleConfig) in
  (outstanding 0 w1 = false
   /\ shownWorkingState (effects w1) = Some idle
   /\ _workingState (this w1) = asking
   /\ shownWorkingState (effects (step w1 WebviewLoaded)) = Some asking)
  /\ (currentMessageNumber <$> requests w2 !! 0 = Some 1
      /\ currentMessageNumber <$> requests w2 !! 1 = Some 2
      /\ _currentMessageNumber (this w2) = 2
      /\ outstanding 1 w2 = true
      /\ shownWorkingState (effects w2) = Some idle).
Proof. vm_compute. repeat split. Qed.

(** C2 (not met by the code): with A superseded by B, the completion of A
    posts a working-state message to the panel, and the failure of A posts
    its partial text with the error trailer over what B has streamed. *)
Theorem stale_completion_reaches_panel :
  let w := run [ViewResolved panel; promptA; Progress 0 "par"; promptB; Progress 1 "bbb"]
               (activate sampleConfig) in
  (currentMessageNumber <$> requests w !! 0 = Some 1
   /\ _currentMessageNumber (this w) = 2)
  /\ effects (step w (Progress 0 "late")) = effects w
  /\ effects (step w (Fulfilled 0 resA)) = effects w ++ [Posted (setWorkingState idle)]
  /\ effects (step w (Rejected 0 "Error: timed out"))
     = effects w ++ [Posted (setWorkingState idle); Shown;
                     Posted (addResponse
                               ("par" +:+ nl +:+ nl +:+ "---" +:+ nl
                                +:+ "[ERROR] Error: timed out"))].
Proof. vm_compute. repeat split. Qed.

(** C3 (not met by the code): a request of generation 1 is outstanding when
    the API key changes; the rebuild clears the conversation and restarts the
    numbering, so the next prompt is generation 1 again, and the result of
    the old request, from the old backend, passes the staleness test and
    becomes the conversation and the response. *)
Theorem stale_result_after_rebuild_overwrites :
  let rebuilt := run [ViewResolved panel; promptA;
                      ConfigurationChanged (affects "chatgpt.apiKey") rotatedKey]
                     (activate sampleConfig) in
  let w := run [promptB; Fulfilled 0 resA] rebuilt in
  (_conversation (this rebuilt) = None
   /\ _currentMessageNumber (this rebuilt) = 0
   /\ _chatGPTAPI (this rebuilt) = Some (ChatGPTAPI "sk-2")
   /\ outstanding 0 rebuilt = true)
  /\ (api <$> requests w !! 0 = Some (ChatGPTAPI "sk-1")
      /\ currentMessageNumber <$> requests w !! 0 = Some 1
      /\ _currentMessageNumber (this w) = 1
      /\ _conversation (this w)
         = Some {| conversationId := "conv-A"; parentMessageId := "msg-A" |}
      /\ _response (this w) = Some "answer A"%string).
Proof. vm_compute. repeat split. Qed.

(** C4 (not met by the code): the handle stored while [keepConversation]
    was on is still sent with the next request after the setting has been
    turned off, and is still stored after that request has been answered. *)
Theorem handle_survives_keepConversation_off :
  let kept := run [ViewResolved panel; promptA; Fulfilled 0 resA] (activate sampleConfig) in
  let off := step kept (ConfigurationChanged (affects "chatgpt.keepConversation") keepOff) in
  let w := run [promptB; Fulfilled 1 resB] off in
  _conversation (this kept)
  = Some {| conversationId := "conv-A"; parentMessageId := "msg-A" |}
  /\ keepConversation (getSettings off) = Some false
  /\ conversation <$> requests w !! 1
     = Some (Some {| conversationId := "conv-A"; parentMessageId := "msg-A" |})
  /\ _response (this w) = Some "answer B"%string
  /\ _conversation (this w)
     = Some {| conversationId := "conv-A"; parentMessageId := "msg-A" |}.
Proof. vm_compute. repeat split. Qed.

(** * Further properties of the code *)

(** ** Constructing the backend *)

Lemma is_str_eq o s : is_str o s = true <-> o = Some s.
Proof.
  destruct o as [x|]; cbn; [|split; discriminate].
  rewrite String.eqb_eq. split; congruence.
Qed.

Lemma eqb_empty_false k : k <> ""%string -> String.eqb k "" = false.
Proof. apply String.eqb_neq. Qed.

Lemma newAPI_complete p a b :
  _authInfo p = Some a -> complete a b -> _chatGPTAPI (_newAPI p) = Some b.
Proof.
  intros Ha [(Hm & k & Hk & Hne & ->) | (Hm & t & u & Ht & Hnt & Hu & Hnu & ->)].
  - unfold _newAPI. cbn. rewrite Ha. unfold is_str. rewrite Hm, Hk. cbn.
    by rewrite (eqb_empty_false k Hne).
  - unfold _newAPI. cbn. rewrite Ha. unfold is_str. rewrite Hm, Ht, Hu. cbn.
    by rewrite (eqb_empty_false t Hnt), (eqb_empty_false u Hnu).
Qed.

Lemma newAPI_incomplete p :
  (forall a b, _authInfo p = Some a -> ~ complete a b) ->
  _chatGPTAPI (_newAPI p) = _chatGPTAPI p.
Proof.
  intros Hno. unfold _newAPI. cbn.
  destruct (_authInfo p) as [a|] eqn:Ha; [|reflexivity].
  destruct (is_str (mode a) "ChatGPTAPI") eqn:Hm.
  - apply is_str_eq in Hm.
    destruct (apiKey a) as [k|] eqn:Hk; [|reflexivity].
    destruct (String.eqb_spec k ""); [reflexivity|].
    exfalso. apply (Hno a (ChatGPTAPI k) eq_refl). left. eauto.
  - destruct (is_str (mode a) "ChatGPTUnofficialProxyAPI") eqn:Hm'; [|reflexivity].
    apply is_str_eq in Hm'.
    destruct (accessToken a) as [t|] eqn:Ht; [|reflexivity].
    destruct (String.eqb_spec t ""); [reflexivity|].
    destruct (proxyUrl a) as [u|] eqn:Hu; [|reflexivity].
    destruct (String.eqb_spec u ""); [reflexivity|].
    exfalso. apply (Hno a (ChatGPTUnofficialProxyAPI t u) eq_refl). right.
    split; [done|]. exists t, u. eauto.
Qed.

(** X1: [_newAPI] installs a backend exactly for complete credentials: an
    API key in mode [ChatGPTAPI], an access token and a proxy URL in mode
    [ChatGPTUnofficialProxyAPI], none of them empty.  For any other
    authentication info the backend that was there stays.  In both cases the
    conversation is dropped and the numbering restarts. *)
Theorem newAPI_installs_for_complete_credentials (p : Provider) :
  (forall a b, _authInfo p = Some a -> complete a b ->
     _chatGPTAPI (_newAPI p) = Some b)
  /\ ((forall a b, _authInfo p = Some a -> ~ complete a b) ->
      _chatGPTAPI (_newAPI p) = _chatGPTAPI p)
  /\ _conversation (_newAPI p) = None
  /\ _currentMessageNumber (_newAPI p) = 0.
Proof.
  split; [|split; [|split]].
  - intros a b. apply newAPI_complete.
  - apply newAPI_incomplete.
  - apply newAPI_conversation.
  - apply newAPI_currentMessageNumber.
Qed.

Lemma newAPI_installs_for_complete_credentials_witness :
  _chatGPTAPI (_newAPI (set_authInfo (Some (authInfoOf sampleConfig)) (this constructor)))
  = Some (ChatGPTAPI "sk-1")
  /\ _chatGPTAPI (_newAPI (set_authInfo (Some (authInfoOf emptyConfig))
                             (this (activate sampleConfig))))
     = Some (ChatGPTAPI "sk-1").
Proof.
  split.
  - refine (proj1 (newAPI_installs_for_complete_credentials
                     (set_authInfo (Some (authInfoOf sampleConfig)) (this constructor)))
              (authInfoOf sampleConfig) _ eq_refl _).
    left. split; [reflexivity|]. exists "sk-1"%string.
    split; [reflexivity | split; [discriminate | reflexivity]].
  - refine (proj1 (proj2 (newAPI_installs_for_complete_credentials
                            (set_authInfo (Some (authInfoOf emptyConfig))
                               (this (activate sampleConfig))))) _).
    intros a b [= <-] [(Hm & _) | (Hm & _)]; discriminate Hm.
Defined.

(** The backend of the provider after [setAuthenticationInfo]. *)
Lemma setAuthenticationInfo_chatGPTAPI a w :
  _chatGPTAPI (this (setAuthenticationInfo a w))
  = match constructed (Some a) with
    | Some b => Some b
    | None => _chatGPTAPI (this w)
    end.
Proof.
  unfold setAuthenticationInfo. cbn [this on_this]. rewrite newAPI_chatGPTAPI.
  open_world w; reflexivity.
Qed.

Lemma resetConversation_chatGPTAPI w :
  _chatGPTAPI (this (resetConversation w)) = _chatGPTAPI (this w).
Proof. open_world w; reflexivity. Qed.

Lemma setSettings_chatGPTAPI s w :
  _chatGPTAPI (this (setSettings s w)) = _chatGPTAPI (this w).
Proof. open_world w; reflexivity. Qed.

Lemma searchSelection_chatGPTAPI_some prompt editor resolved w b :
  _chatGPTAPI (this w) = Some b ->
  _chatGPTAPI (this (searchSelection prompt editor resolved w)) = Some b.
Proof.
  intros Hb. rewrite searchSelection_prepared, sendSelection_chatGPTAPI.
  destruct (prepared_frame prompt resolved w) as (_ & _ & _ & _ & ->).
  by rewrite Hb.
Qed.

Lemma step_backend w ev b :
  _chatGPTAPI (this w) = Some b ->
  _chatGPTAPI (this (step w ev)) = Some b
  \/ exists affectsConfiguration config b',
       ev = ConfigurationChanged affectsConfiguration config
       /\ affectsAuth affectsConfiguration = true
       /\ constructed (Some (authInfoOf config)) = Some b'
       /\ _chatGPTAPI (this (step w ev)) = Some b'.
Proof.
  intros Hb. destruct ev.
  - cbn [step]. unfold onDidChangeConfiguration. fold (affectsAuth affectsConfiguration).
    destruct (affectsAuth affectsConfiguration) eqn:Ha.
    + rewrite resetConversation_chatGPTAPI, setAuthenticationInfo_chatGPTAPI.
      destruct (constructed (Some (authInfoOf config))) as [b'|] eqn:Hc.
      * right. exists affectsConfiguration, config, b'. auto.
      * left. exact Hb.
    + left. repeat case_match; rewrite ?setSettings_chatGPTAPI; exact Hb.
  - left. open_world w; exact Hb.
  - left. open_world w; exact Hb.
  - left. open_world w; exact Hb.
  - left. by apply searchSelection_chatGPTAPI_some.
  - left. open_world w; exact Hb.
  - left. by rewrite <- Hb; apply resetConversation_chatGPTAPI.
  - left. open_world w; cbn in Hb; crunch; congruence.
  - left. open_world w; cbn in Hb; crunch; congruence.
  - left. open_world w; cbn in Hb; crunch; congruence.
  - left. cbn [step]. destruct (_view (this w)) eqn:Hv; [exact Hb|].
    rewrite (suspendSelection_prepared _ _ Hv).
    destruct (prepared_frame prompt None w) as (_ & _ & _ & _ & ->). by rewrite Hb.
  - left. cbn [step]. by rewrite sendSelection_chatGPTAPI.
Qed.

(** X2: a backend, once constructed, is never discarded.  Every event
    leaves the backend as it is, except a change of an authentication key
    whose new credentials are complete, which installs the new backend; a
    change to incomplete credentials keeps the old backend in place, and so
    does every run of events keep some backend. *)
Theorem backend_never_lost (w : World) (b : ChatBackend) :
  _chatGPTAPI (this w) = Some b ->
  (forall ev,
     _chatGPTAPI (this (step w ev)) = Some b
     \/ exists affectsConfiguration config b',
          ev = ConfigurationChanged affectsConfiguration config
          /\ affectsAuth affectsConfiguration = true
          /\ constructed (Some (authInfoOf config)) = Some b'
          /\ _chatGPTAPI (this (step w ev)) = Some b')
  /\ (forall affectsConfiguration config,
        constructed (Some (authInfoOf config)) = None ->
        _chatGPTAPI (this (step w (ConfigurationChanged affectsConfiguration config)))
        = Some b)
  /\ forall evs, is_Some (_chatGPTAPI (this (run evs w))).
Proof.
  intros Hb. split; [|split].
  - intros ev. by apply step_backend.
  - intros aff config Hc.
    destruct (step_backend w (ConfigurationChanged aff config) b Hb)
      as [H | (aff' & config' & b' & [= <- <-] & _ & Hc' & _)]; [exact H | congruence].
  - intros evs. revert w b Hb. unfold run.
    induction evs as [|ev evs IH]; intros w b Hb; cbn.
    + eauto.
    + destruct (step_backend w ev b Hb) as [H | (_ & _ & b' & _ & _ & _ & H)]; eauto.
Qed.

Lemma backend_never_lost_witness :
  _chatGPTAPI (this (run [ConfigurationChanged (affects "chatgpt.apiKey") emptyConfig;
                          ResetConversation; Abort]
                         (activate sampleConfig)))
  = Some (ChatGPTAPI "sk-1")
  /\ is_Some (_chatGPTAPI (this (run [ConfigurationChanged (affects "chatgpt.apiKey")
                                        rotatedKey]
                                     (activate sampleConfig)))).
Proof.
  destruct (backend_never_lost (activate sampleConfig) (ChatGPTAPI "sk-1") eq_refl)
    as (_ & _ & H).
  split; [reflexivity | apply H].
Defined.

(** X3: with [proxyUrl] set to ["Custom"] the proxy backend is built on
    [customProxyUrl]; when that is missing or empty, no backend is built. *)
Theorem custom_proxy_url (config : Configuration) (t : string) :
  cfg_mode config = Some "ChatGPTUnofficialProxyAPI"%string ->
  cfg_accessToken config = Some t ->
  t <> ""%string ->
  cfg_proxyUrl config = Some "Custom"%string ->
  (forall u, cfg_customProxyUrl config = Some u -> u <> ""%string ->
     _chatGPTAPI (this (activate config)) = Some (ChatGPTUnofficialProxyAPI t u))
  /\ (truthy (cfg_customProxyUrl config) = false ->
      _chatGPTAPI (this (activate config)) = None).
Proof.
  intros Hm Ht Hnt Hp. unfold activate.
  rewrite setSettings_chatGPTAPI. unfold setAuthenticationInfo. cbn [this on_this].
  split.
  - intros u Hu Hnu. apply newAPI_complete with (a := authInfoOf config); [reflexivity|].
    right. split; [exact Hm|]. exists t, u.
    unfold authInfoOf. cbn. rewrite Hp. cbn. auto.
  - intros Hc. rewrite newAPI_incomplete; [reflexivity|].
    intros a b [= <-] [(Hm' & _) | (_ & t' & u & _ & _ & Hu & Hnu & _)].
    + cbn in Hm'. congruence.
    + revert Hu. unfold authInfoOf. cbn. rewrite Hp. cbn. intros Hu.
      rewrite Hu in Hc. cbn in Hc. rewrite (eqb_empty_false u Hnu) in Hc. discriminate.
Qed.

Lemma custom_proxy_url_witness :
  _chatGPTAPI (this (activate proxyConfig))
  = Some (ChatGPTUnofficialProxyAPI "token" "https://proxy.example/api").
Proof.
  refine (proj1 (custom_proxy_url proxyConfig "token" eq_refl eq_refl _ eq_refl)
            "https://proxy.example/api"%string eq_refl _); discriminate.
Defined.


(** ** Settings *)

Lemma spread_assoc a b c : spread (spread a b) c = spread a (spread b c).
Proof.
  destruct a, b, c. unfold spread. cbn.
  f_equal; repeat case_match; congruence.
Qed.

Lemma spread_no_patch a : spread a no_patch = a.
Proof. by destruct a. Qed.

(** X4: [setSettings] is a merge patch.  The empty patch changes nothing;
    two patches in a row are the patch merged from them, the later one
    winning; a key of the patch replaces the stored value and an absent key
    keeps it; and nothing but the settings is touched. *)
Theorem setSettings_merges (a b : Settings) (w : World) :
  setSettings no_patch w = w
  /\ setSettings b (setSettings a w) = setSettings (spread a b) w
  /\ selectedInsideCodeblock (getSettings (setSettings a w))
     = match selectedInsideCodeblock a with
       | Some x => Some x
       | None => selectedInsideCodeblock (getSettings w)
       end
  /\ keepConversation (getSettings (setSettings a w))
     = match keepConversation a with
       | Some x => Some x
       | None => keepConversation (getSettings w)
       end
  /\ timeoutLength (getSettings (setSettings a w))
     = match timeoutLength a with
       | Some x => Some x
       | None => timeoutLength (getSettings w)
       end
  /\ exists s, setSettings a w = on_this (set_settings s) w.
Proof.
  unfold setSettings, getSettings.
  split; [|split; [|split; [|split; [|split]]]]; try reflexivity.
  - destruct w as [p cs rs es]. destruct p. unfold on_this, set_settings. cbn.
    by rewrite spread_no_patch.
  - destruct w as [p cs rs es]. destruct p. unfold on_this, set_settings. cbn.
    by rewrite spread_assoc.
  - eauto.
Qed.

(** ** The shape of reachable states *)

Lemma or_60_nonzero o : or_60 o <> 0%Z.
Proof.
  unfold or_60. destruct o as [n|]; [|discriminate].
  destruct (Z.eqb_spec n 0); [discriminate | assumption].
Qed.

Lemma request_ok_mono w w' rq :
  _abortController (this w) <= _abortController (this w') ->
  request_ok w rq -> request_ok w' rq.
Proof. unfold request_ok. lia. Qed.

Lemma requests_ok_mono w w' rs :
  _abortController (this w) <= _abortController (this w') ->
  Forall (request_ok w) rs -> Forall (request_ok w') rs.
Proof.
  intros Hle H. eapply Forall_impl; [exact H|].
  intros rq. by apply request_ok_mono.
Qed.

Lemma shape_constructor : shape constructor.
Proof.
  split; cbn; try done.
  - intros i Hi. lia.
  - by exists false, true, 60%Z.
Qed.

Lemma shape_setAuthenticationInfo a w : shape w -> shape (setAuthenticationInfo a w).
Proof.
  intros [H1 H2 H3 H4 H5].
  assert (_abortController (this (setAuthenticationInfo a w)) = _abortController (this w))
    as Hp by (unfold setAuthenticationInfo; cbn [this on_this];
              by rewrite newAPI_abortController).
  split.
  - by rewrite Hp.
  - intros i. rewrite Hp. apply H2.
  - apply (requests_ok_mono w); [lia | exact H3].
  - unfold setAuthenticationInfo. cbn [this on_this]. by rewrite newAPI_settings.
  - rewrite setAuthenticationInfo_chatGPTAPI.
    destruct (constructed (Some a)); [discriminate|]. intros Hb.
    split; [by apply H5|].
    unfold setAuthenticationInfo. cbn [this on_this]. apply newAPI_conversation.
Qed.

Lemma shape_ensureAPI w : shape w -> shape (ensureAPI w).
Proof.
  intros [H1 H2 H3 H4 H5]. split; autorewrite with provider; auto.
  - apply (requests_ok_mono w); [by autorewrite with provider | exact H3].
  - unfold ensureAPI. destruct (_chatGPTAPI (this w)) eqn:Hb; [discriminate|].
    intros _. split; [by apply H5|]. cbn [this on_this]. apply newAPI_conversation.
Qed.

Ltac open_shape H :=
  destruct H as [?Hlast ?Hold ?Hrqs ?Hset ?Hnb]; unfold request_ok in *.

Lemma shape_setSettings s w :
  timeoutLength s <> Some 0%Z -> shape w -> shape (setSettings s w).
Proof.
  intros Hs Hw. open_shape Hw. destruct Hset as (x & k & n & Hset & Hn).
  open_world w; cbn in Hset; subst; split; unfold request_ok; cbn in *; auto.
  all: destruct s as [[?|] [?|] [?|]]; cbn in *; eauto 10.
  all: repeat eexists; intros ->; congruence.
Qed.

Lemma shape_resetConversation w : shape w -> shape (resetConversation w).
Proof.
  intros Hw. open_shape Hw.
  open_world w; split; unfold request_ok; cbn in *; auto.
  all: try discriminate.
  all: intros Hb; split; [by apply Hnb | reflexivity].
Qed.

Lemma shape_set_prompt s w : shape w -> shape (on_this (set_prompt s) w).
Proof. intros Hw. open_shape Hw. open_world w; split; unfold request_ok; cbn in *; auto. Qed.

Lemma shape_focusView resolved w : shape w -> shape (focusView resolved w).
Proof.
  intros Hw. open_shape Hw.
  open_world w; destruct resolved; split; unfold request_ok; cbn in *; auto.
Qed.

Lemma shape_sendSelection prompt editor w : shape w -> shape (sendSelection prompt editor w).
Proof.
  intros Hw. open_shape Hw.
  open_world w; split; unfold request_ok; crunch; auto.
  all: try (apply Forall_app; split; [exact Hrqs | constructor; [cbn; lia | constructor]]).
  all: try discriminate.
Qed.

Lemma old_after_abort (cs : list bool) (a : nat) :
  S a = length cs ->
  (forall i, i < a -> cs !! i = Some true) ->
  forall i, i < length cs -> (<[a := true]> cs ++ [false]) !! i = Some true.
Proof.
  intros Hlast Hold i Hi. rewrite lookup_app_l by (rewrite length_insert; lia).
  destruct (decide (i = a)) as [->|].
  - by rewrite list_lookup_insert_eq by lia.
  - rewrite list_lookup_insert_ne by congruence. apply Hold. lia.
Qed.

Lemma shape_abort w : shape w -> shape (abort w).
Proof.
  intros Hw. open_shape Hw.
  open_world w; split; unfold request_ok; cbn in *; auto.
  all: rewrite ?length_app, ?length_insert; cbn; try lia.
  all: try (apply old_after_abort; assumption).
  all: try (eapply Forall_impl; [exact Hrqs | cbn; intros; lia]).
Qed.

Lemma shape_onProgress rid t w : shape w -> shape (onProgress rid t w).
Proof.
  intros Hw. unfold onProgress.
  destruct (requests w !! rid) as [rq|] eqn:Hrq; [|exact Hw].
  destruct (negb _); [exact Hw|].
  destruct (_view (this w)) as [v|] eqn:Hv; [|exact Hw].
  destruct (visible v); [|exact Hw].
  open_shape Hw.
  pose proof (proj1 (Forall_lookup _ _) Hrqs rid rq Hrq) as Hok.
  open_world w; cbn in Hv; simplify_eq; split; unfold request_ok; cbn in *; auto.
  all: try (apply Forall_insert; [exact Hrqs | exact Hok]).
  all: try discriminate.
  all: intros Hb; destruct (Hnb Hb) as [-> _]; discriminate.
Qed.

Lemma shape_markSettled rid w : shape w -> shape (markSettled rid w).
Proof.
  intros Hw. open_shape Hw.
  open_world w; split; unfold request_ok; cbn in *; auto.
  all: try (apply Forall_alter; [exact Hrqs | by intros rq]).
  all: try discriminate.
  all: intros Hb; destruct (Hnb Hb) as [-> ?]; auto.
Qed.

Lemma shape_postMessage m w : shape w -> shape (postMessage m w).
Proof. intros Hw. open_shape Hw. open_world w; split; unfold request_ok; cbn in *; auto. Qed.

Lemma shape_saveResponse r w : shape w -> shape (snd (saveResponse r w)).
Proof. intros Hw. open_shape Hw. open_world w; split; unfold request_ok; cbn in *; auto. Qed.

Lemma shape_set_conversation c w b :
  _chatGPTAPI (this w) = Some b -> shape w -> shape (on_this (set_conversation c) w).
Proof.
  intros Hb Hw. open_shape Hw.
  open_world w; cbn in Hb; simplify_eq; split; unfold request_ok; cbn in *; auto; discriminate.
Qed.


Lemma settle_this m rid w : this (postMessage m (markSettled rid w)) = this w.
Proof. open_world w; reflexivity. Qed.

Lemma request_needs_backend w rid rq :
  shape w -> requests w !! rid = Some rq -> is_Some (_chatGPTAPI (this w)).
Proof.
  intros Hw Hrq. destruct (_chatGPTAPI (this w)) eqn:Hb; [eauto|].
  destruct (shape_nobackend w Hw Hb) as [Hnil _]. rewrite Hnil in Hrq. discriminate.
Qed.

Lemma shape_onFulfilled rid res w : shape w -> shape (snd (onFulfilled rid res w)).
Proof.
  intros Hw. unfold onFulfilled.
  destruct (requests w !! rid) as [rq|] eqn:Hrq; [|exact Hw].
  destruct (request_needs_backend w rid rq Hw Hrq) as [b Hb].
  cbv zeta.
  assert (shape (postMessage (setWorkingState idle) (markSettled rid w))) as Hw1
    by apply shape_postMessage, shape_markSettled, Hw.
  destruct (negb _); [exact Hw1|].
  destruct (or_false _); apply shape_saveResponse; [|exact Hw1].
  apply (shape_set_conversation _ _ b); [|exact Hw1].
  by rewrite settle_this.
Qed.

Lemma shape_onRejected rid e w : shape w -> shape (snd (onRejected rid e w)).
Proof.
  intros Hw. unfold onRejected.
  destruct (requests w !! rid) as [rq|] eqn:Hrq; [|exact Hw].
  cbv zeta. apply shape_saveResponse, shape_postMessage, shape_markSettled, Hw.
Qed.

Lemma shape_step w ev : shape w -> shape (step w ev).
Proof.
  intros Hw. destruct ev; cbn [step].
  - unfold onDidChangeConfiguration.
    repeat case_match;
      auto using shape_resetConversation, shape_setAuthenticationInfo.
    all: apply shape_setSettings; [|exact Hw]; cbn; try discriminate.
    intros Heq. injection Heq. apply or_60_nonzero.
  - open_shape Hw. open_world w; split; unfold request_ok; cbn in *; auto.
  - open_shape Hw. open_world w; split; unfold request_ok; cbn in *; auto.
  - by apply shape_postMessage.
  - rewrite searchSelection_prepared.
    apply shape_sendSelection, shape_focusView, shape_ensureAPI, shape_set_prompt, Hw.
  - by apply shape_abort.
  - by apply shape_resetConversation.
  - destruct (outstanding rid w); [by apply shape_onProgress | exact Hw].
  - destruct (outstanding rid w); [by apply shape_onFulfilled | exact Hw].
  - destruct (outstanding rid w); [by apply shape_onRejected | exact Hw].
  - destruct (_view (this w)) eqn:Hv; [exact Hw|].
    rewrite (suspendSelection_prepared _ _ Hv). unfold prepared.
    apply shape_focusView, shape_ensureAPI, shape_set_prompt, Hw.
  - by apply shape_sendSelection.
Qed.

Lemma shape_activate config : shape (activate config).
Proof.
  apply shape_setSettings.
  - cbn. intros Heq. injection Heq. apply or_60_nonzero.
  - apply shape_setAuthenticationInfo, shape_constructor.
Qed.

Lemma reachable_shape w : reachable w -> shape w.
Proof.
  intros (config & evs & ->). generalize (shape_activate config).
  generalize (activate config). unfold run.
  induction evs as [|ev evs IH]; intros w Hw; cbn; [exact Hw|].
  apply IH, shape_step, Hw.
Qed.

(** ** Settings and timeout *)

Lemma sendSelection_timeout prompt editor w b :
  _chatGPTAPI (this w) = Some b ->
  exists rq,
    requests (sendSelection prompt editor w) = requests w ++ [rq]
    /\ timeoutMs rq = (or_60 (timeoutLength (_settings (this w))) * 1000)%Z
    /\ api rq = b
    /\ currentMessageNumber rq = S (_currentMessageNumber (this w))
    /\ response rq = ""%string
    /\ settled rq = false.
Proof.
  intros Hb. open_world w; cbn in Hb; simplify_eq.
  all: crunch; eexists; repeat split.
Qed.

(** X5: in every reachable state the settings have all three fields and
    the timeout is not 0, because every writer replaces a missing or zero
    timeout by 60; the backend call of a prompt is given that timeout in
    milliseconds. *)
Theorem timeout_is_never_zero (w : World) :
  reachable w ->
  exists s k n,
    getSettings w
    = {| selectedInsideCodeblock := Some s; keepConversation := Some k;
         timeoutLength := Some n |}
    /\ n <> 0%Z
    /\ forall prompt editor resolved b,
         _chatGPTAPI (this w) = Some b ->
         exists rq,
           requests (searchSelection prompt editor resolved w) = requests w ++ [rq]
           /\ timeoutMs rq = (n * 1000)%Z
           /\ timeoutMs rq <> 0%Z.
Proof.
  intros Hr. destruct (shape_settings w (reachable_shape w Hr)) as (s & k & n & Hs & Hn).
  exists s, k, n. split; [exact Hs|]. split; [exact Hn|].
  intros prompt editor resolved b Hb.
  rewrite searchSelection_prepared.
  destruct (prepared_frame prompt resolved w) as (_ & Hrq & Hset & _ & Hb').
  rewrite Hb in Hb'.
  destruct (sendSelection_timeout (default ""%string prompt) editor _ _ Hb')
    as (rq & Hrq' & Ht & _).
  exists rq. rewrite Hrq', Hrq, Ht, Hset. unfold getSettings in Hs. rewrite Hs. cbn.
  destruct (Z.eqb_spec n 0); [contradiction|]. split; [reflexivity|]. split; [reflexivity|lia].
Qed.

Lemma timeout_is_never_zero_witness :
  exists s k n,
    getSettings (activate proxyConfig)
    = {| selectedInsideCodeblock := Some s; keepConversation := Some k;
         timeoutLength := Some n |}
    /\ n <> 0%Z
    /\ exists rq,
         requests (searchSelection (Some "A"%string) None None (activate proxyConfig))
         = requests (activate proxyConfig) ++ [rq]
         /\ timeoutMs rq = (n * 1000)%Z
         /\ timeoutMs rq <> 0%Z.
Proof.
  destruct (timeout_is_never_zero (activate proxyConfig)) as (s & k & n & Hs & Hn & H).
  - exists proxyConfig, []. reflexivity.
  - exists s, k, n. split; [exact Hs|]. split; [exact Hn|].
    exact (H (Some "A"%string) None None
             (ChatGPTUnofficialProxyAPI "token" "https://proxy.example/api") eq_refl).
Defined.

(** ** Abort and the outstanding requests *)

(** X6: [abort] signals every request issued so far, not only the latest:
    in a reachable state each request holds the signal of the live controller
    or of one aborted earlier, so after [abort] the signal of every request
    is aborted.  The requests themselves, the message number and the
    conversation are left as they are. *)
Theorem abort_signals_every_request (w : World) :
  reachable w ->
  Forall (fun rq => controllers (abort w) !! abortSignal rq = Some true)
         (requests (abort w))
  /\ requests (abort w) = requests w
  /\ _currentMessageNumber (this (abort w)) = _currentMessageNumber (this w)
  /\ _conversation (this (abort w)) = _conversation (this w)
  /\ _workingState (this (abort w)) = _workingState (this w).
Proof.
  intros Hr. pose proof (reachable_shape w Hr) as Hw.
  pose proof (shape_abort w Hw) as Hw'.
  assert (_abortController (this (abort w)) = S (_abortController (this w))) as Hp.
  { destruct Hw as [Hlast _ _ _ _]. clear Hr Hw'.
    open_world w; cbn in *; rewrite length_insert; lia. }
  assert (requests (abort w) = requests w) as Hrq by (open_world w; reflexivity).
  split; [|split; [exact Hrq|]].
  - rewrite Hrq. eapply Forall_impl; [exact (shape_requests w Hw)|].
    intros rq [Hsig _]. apply (shape_old _ Hw'). rewrite Hp. lia.
  - repeat split; open_world w; reflexivity.
Qed.

Lemma abort_signals_every_request_witness :
  let w := run [ViewResolved panel; promptA; promptB] (activate sampleConfig) in
  Forall (fun rq => controllers (abort w) !! abortSignal rq = Some true)
         (requests (abort w))
  /\ length (requests (abort w)) = 2.
Proof.
  intros w. destruct (abort_signals_every_request w) as (H & _).
  - exists sampleConfig, [ViewResolved panel; promptA; promptB]. reflexivity.
  - split; [exact H | reflexivity].
Defined.

(** ** Requests after a reset *)

Lemma stale_after_zero w rid rq res partialText :
  shape w ->
  _currentMessageNumber (this w) = 0 ->
  requests w !! rid = Some rq ->
  onProgress rid partialText w = w
  /\ fst (onFulfilled rid res w) = ""%string
  /\ this (snd (onFulfilled rid res w)) = this w.
Proof.
  intros Hw H0 Hrq.
  destruct (proj1 (Forall_lookup _ _) (shape_requests w Hw) rid rq Hrq) as [_ Hgen].
  assert (currentMessageNumber rq <> _currentMessageNumber (this w)) as Hne by lia.
  split; [by apply (stale_progress_suppressed w rid rq)|].
  destruct (stale_result_discarded w rid rq res Hrq Hne) as (H1 & H2 & _). auto.
Qed.

Lemma resetConversation_requests w : requests (resetConversation w) = requests w.
Proof. open_world w; reflexivity. Qed.



(** ** Dispatching a prompt *)

Lemma searchSelection_with_backend prompt editor resolved w b :
  _chatGPTAPI (this w) = Some b ->
  searchSelection prompt editor resolved w
  = sendSelection (default ""%string prompt) editor
      (focusView resolved (on_this (set_prompt prompt) w)).
Proof.
  intros Hb. rewrite searchSelection_prepared. unfold prepared.
  rewrite (ensureAPI_some _ b); [reflexivity|]. open_world w; exact Hb.
Qed.

Lemma sendSelection_with_backend prompt editor w b :
  _chatGPTAPI (this w) = Some b ->
  _currentMessageNumber (this (sendSelection prompt editor w))
  = S (_currentMessageNumber (this w))
  /\ _workingState (this (sendSelection prompt editor w)) = asking
  /\ _prompt (this (sendSelection prompt editor w)) = _prompt (this w)
  /\ _response (this (sendSelection prompt editor w)) = Some ""%string
  /\ _conversation (this (sendSelection prompt editor w)) = _conversation (this w)
  /\ effects (sendSelection prompt editor w)
     = effects w
       ++ match _view (this w) with
          | Some _ => [Posted (setPrompt (_prompt (this w)));
                       Posted (setWorkingState asking)]
          | None => []
          end
  /\ exists rq,
       requests (sendSelection prompt editor w) = requests w ++ [rq]
       /\ api rq = b
       /\ searchPrompt rq = buildSearchPrompt (_settings (this w)) prompt editor
       /\ currentMessageNumber rq = S (_currentMessageNumber (this w))
       /\ conversation rq = _conversation (this w)
       /\ response rq = ""%string
       /\ settled rq = false.
Proof.
  intros Hb. open_world w; cbn in Hb; simplify_eq.
  all: crunch; rewrite <- ?app_assoc, ?app_nil_r; cbn.
  all: repeat split; eexists; repeat split.
Qed.

(** X8: what a prompt does when there is a backend.  With a view
    [searchSelection] runs through: the message number goes up by one, the
    working-state field becomes [asking], the stored response is emptied, one
    backend call is issued on the current backend, tagged with the new number
    and carrying the stored conversation, and the trace grows by the [show]
    call, the echo of the prompt as it was given (not the search prompt with
    the selection) and the [asking] message.  Without a view the call stores
    the prompt, issues the focus command and is suspended.  When it resumes,
    in whatever state the events in between have left, it does the same as
    with a view, except that the echo is the [_prompt] field as it is then,
    which is the prompt of the call that was started last. *)
Theorem dispatch_with_backend (w : World) (prompt editor : option string)
    (resolved : option WebviewView) (b : ChatBackend) :
  _chatGPTAPI (this w) = Some b ->
  (forall v, _view (this w) = Some v ->
     _currentMessageNumber (this (searchSelection prompt editor resolved w))
     = S (_currentMessageNumber (this w))
     /\ _workingState (this (searchSelection prompt editor resolved w)) = asking
     /\ _prompt (this (searchSelection prompt editor resolved w)) = prompt
     /\ _response (this (searchSelection prompt editor resolved w)) = Some ""%string
     /\ _conversation (this (searchSelection prompt editor resolved w))
        = _conversation (this w)
     /\ effects (searchSelection prompt editor resolved w)
        = effects w ++ [Shown; Posted (setPrompt prompt); Posted (setWorkingState asking)]
     /\ exists rq,
          requests (searchSelection prompt editor resolved w) = requests w ++ [rq]
          /\ api rq = b
          /\ currentMessageNumber rq = S (_currentMessageNumber (this w))
          /\ conversation rq = _conversation (this w)
          /\ response rq = ""%string
          /\ settled rq = false)
  /\ (_view (this w) = None ->
      this (suspendSelection prompt w) = set_prompt prompt (this w)
      /\ effects (suspendSelection prompt w) = effects w ++ [FocusCommand]
      /\ requests (suspendSelection prompt w) = requests w
      /\ controllers (suspendSelection prompt w) = controllers w)
  /\ forall sp,
       _currentMessageNumber (this (sendSelection sp editor w))
       = S (_currentMessageNumber (this w))
       /\ _workingState (this (sendSelection sp editor w)) = asking
       /\ _prompt (this (sendSelection sp editor w)) = _prompt (this w)
       /\ _response (this (sendSelection sp editor w)) = Some ""%string
       /\ _conversation (this (sendSelection sp editor w)) = _conversation (this w)
       /\ effects (sendSelection sp editor w)
          = effects w
            ++ match _view (this w) with
               | Some _ => [Posted (setPrompt (_prompt (this w)));
                            Posted (setWorkingState asking)]
               | None => []
               end
       /\ exists rq,
            requests (sendSelection sp editor w) = requests w ++ [rq]
            /\ api rq = b
            /\ searchPrompt rq = buildSearchPrompt (_settings (this w)) sp editor
            /\ currentMessageNumber rq = S (_currentMessageNumber (this w))
            /\ conversation rq = _conversation (this w)
            /\ response rq = ""%string
            /\ settled rq = false.
Proof.
  intros Hb. split; [|split].
  - intros v Hv. rewrite (searchSelection_with_backend _ _ _ _ b Hb).
    open_world w; cbn in Hb, Hv; simplify_eq.
    destruct resolved; crunch; rewrite <- ?app_assoc; cbn.
    all: repeat split; eexists; repeat split.
  - intros Hv. unfold suspendSelection. cbv zeta.
    rewrite (ensureAPI_some _ b) by (open_world w; exact Hb).
    repeat split.
  - intros sp. by apply sendSelection_with_backend.
Qed.

Lemma dispatch_with_backend_witness :
  let shown := step (activate sampleConfig) (ViewResolved panel) in
  let suspended := run [PromptSuspended (Some "A"%string); PromptSuspended (Some "B"%string);
                        ViewResolved panel] (activate sampleConfig) in
  effects (searchSelection (Some "fix"%string) (Some "x=1"%string) None shown)
  = [Shown; Posted (setPrompt (Some "fix"%string)); Posted (setWorkingState asking)]
  /\ effects (suspendSelection (Some "A"%string) (activate sampleConfig)) = [FocusCommand]
  /\ effects (sendSelection "A" None suspended)
     = [FocusCommand; FocusCommand;
        Posted (setPrompt (Some "B"%string)); Posted (setWorkingState asking)]
  /\ effects (run [PromptResumed "A" None; PromptResumed "B" None] suspended)
     = [FocusCommand; FocusCommand;
        Posted (setPrompt (Some "B"%string)); Posted (setWorkingState asking);
        Posted (setPrompt (Some "B"%string)); Posted (setWorkingState asking)].
Proof.
  intros shown suspended.
  destruct (dispatch_with_backend shown (Some "fix"%string) (Some "x=1"%string) None
              (ChatGPTAPI "sk-1") eq_refl) as (H1 & _ & _).
  destruct (dispatch_with_backend (activate sampleConfig) (Some "A"%string) None None
              (ChatGPTAPI "sk-1") eq_refl) as (_ & H2 & _).
  destruct (dispatch_with_backend suspended None None None
              (ChatGPTAPI "sk-1") eq_refl) as (_ & _ & H3).
  destruct (H1 panel eq_refl) as (_ & _ & _ & _ & _ & H1' & _).
  destruct (H2 eq_refl) as (_ & H2' & _).
  destruct (H3 "A"%string) as (_ & _ & _ & _ & _ & H3' & _).
  split; [exact H1' | split; [exact H2' | split; [exact H3' | reflexivity]]].
Defined.

(** ** The result of the current request *)

(** X9: when the backend call of the request of the current generation
    resolves, its text is the return value and the stored response, and with
    a view the provider posts [idle], shows the view and posts the text,
    whether or not the view is visible; the message number is unchanged and
    the request is no longer outstanding. *)
Theorem result_of_current_request (w : World) (rid : nat) (rq : Request)
    (res : ChatMessage) :
  requests w !! rid = Some rq ->
  currentMessageNumber rq = _currentMessageNumber (this w) ->
  fst (onFulfilled rid res w) = res_text res
  /\ _response (this (snd (onFulfilled rid res w))) = Some (res_text res)
  /\ _currentMessageNumber (this (snd (onFulfilled rid res w)))
     = _currentMessageNumber (this w)
  /\ outstanding rid (snd (onFulfilled rid res w)) = false
  /\ effects (snd (onFulfilled rid res w))
     = effects w ++ match _view (this w) with
                    | Some _ => [Posted (setWorkingState idle); Shown;
                                 Posted (addResponse (res_text res))]
                    | None => []
                    end.
Proof.
  intros Hrq Hgen.
  assert (requests (snd (onFulfilled rid res w)) = alter set_settled rid (requests w)) as Hrs.
  { unfold onFulfilled. rewrite Hrq. cbv zeta. rewrite settle_this, Hgen, Nat.eqb_refl.
    open_world w; cbn; by destruct (or_false _). }
  split; [|split; [|split; [|split]]].
  - unfold onFulfilled. rewrite Hrq. cbv zeta. rewrite settle_this, Hgen, Nat.eqb_refl.
    reflexivity.
  - unfold onFulfilled. rewrite Hrq. cbv zeta. rewrite settle_this, Hgen, Nat.eqb_refl.
    open_world w; cbn; by destruct (or_false _).
  - unfold onFulfilled. rewrite Hrq. cbv zeta. rewrite settle_this, Hgen, Nat.eqb_refl.
    open_world w; cbn; by destruct (or_false _).
  - unfold outstanding. rewrite Hrs, list_lookup_alter_eq, Hrq. reflexivity.
  - unfold onFulfilled. rewrite Hrq. cbv zeta. rewrite settle_this, Hgen, Nat.eqb_refl.
    open_world w; cbn; destruct (or_false _); cbn;
      rewrite <- ?app_assoc, ?app_nil_r; reflexivity.
Qed.

Lemma result_of_current_request_witness :
  let w := run [ViewResolved panel; promptA; VisibilityChanged false]
               (activate sampleConfig) in
  effects (snd (onFulfilled 0 resA w))
  = effects w ++ [Posted (setWorkingState idle); Shown; Posted (addResponse "answer A")].
Proof.
  intros w.
  destruct (result_of_current_request w 0
              {| api := ChatGPTAPI "sk-1"; searchPrompt := "A"; timeoutMs := 30000%Z;
                 abortSignal := 0; conversation := None; currentMessageNumber := 1;
                 response := ""; settled := false |} resA eq_refl eq_refl)
    as (_ & _ & _ & _ & H).
  exact H.
Defined.

(** ** Progress *)

(** X10: progress chunks replace one another: after two chunks of the
    current request on a visible view both have been posted, in order, and
    the partial text of the request is the second chunk alone, which is what
    a failure then reports. *)
Theorem progress_keeps_latest_chunk (w : World) (rid : nat) (rq : Request)
    (t1 t2 e : string) :
  requests w !! rid = Some rq ->
  currentMessageNumber rq = _currentMessageNumber (this w) ->
  _view (this w) = Some {| visible := true |} ->
  onProgress rid t2 (onProgress rid t1 w)
  = emit (Posted (addResponse t2)) (emit (Posted (addResponse t1))
      (set_requests (<[rid := set_local_response t2 rq]> (requests w)) w))
  /\ response <$> requests (onProgress rid t2 (onProgress rid t1 w)) !! rid = Some t2
  /\ fst (onRejected rid e (onProgress rid t2 (onProgress rid t1 w)))
     = t2 +:+ nl +:+ nl +:+ "---" +:+ nl +:+ "[ERROR] " +:+ e.
Proof.
  intros Hrq Hgen Hv.
  pose proof (lookup_lt_Some _ _ _ Hrq) as Hlt.
  assert (onProgress rid t1 w
          = emit (Posted (addResponse t1))
              (set_requests (<[rid := set_local_response t1 rq]> (requests w)) w)) as H1.
  { unfold onProgress, postMessage. rewrite Hrq, Hgen, Nat.eqb_refl, Hv. cbn.
    by rewrite Hv. }
  assert (onProgress rid t2 (onProgress rid t1 w)
          = emit (Posted (addResponse t2)) (emit (Posted (addResponse t1))
              (set_requests (<[rid := set_local_response t2 rq]> (requests w)) w))) as H2.
  { rewrite H1. unfold onProgress, postMessage. cbn.
    rewrite list_lookup_insert_eq by exact Hlt. cbn.
    rewrite Hgen, Nat.eqb_refl, Hv. cbn. by rewrite list_insert_insert_eq. }
  split; [exact H2|]. rewrite H2. split.
  - cbn. by rewrite list_lookup_insert_eq by exact Hlt.
  - unfold onRejected. cbn. by rewrite list_lookup_insert_eq by exact Hlt.
Qed.

Lemma progress_keeps_latest_chunk_witness :
  let w := run [ViewResolved panel; promptA] (activate sampleConfig) in
  fst (onRejected 0 "Error: x" (onProgress 0 "Hello wor" (onProgress 0 "Hel" w)))
  = "Hello wor" +:+ nl +:+ nl +:+ "---" +:+ nl +:+ "[ERROR] Error: x".
Proof.
  intros w.
  destruct (progress_keeps_latest_chunk w 0
              {| api := ChatGPTAPI "sk-1"; searchPrompt := "A"; timeoutMs := 30000%Z;
                 abortSignal := 0; conversation := None; currentMessageNumber := 1;
                 response := ""; settled := false |} "Hel" "Hello wor" "Error: x"
              eq_refl eq_refl eq_refl) as (_ & _ & H).
  exact H.
Defined.

(** ** Generations between two resets *)

Lemma numbered_of (w w' : World) :
  currentMessageNumber <$> requests w' = currentMessageNumber <$> requests w ->
  _currentMessageNumber (this w') = _currentMessageNumber (this w) ->
  (_chatGPTAPI (this w') = None -> _chatGPTAPI (this w) = None) ->
  numbered w -> numbered w'.
Proof.
  intros Hg Hc Hb [H1 H2 H3].
  assert (length (requests w') = length (requests w)) as Hl
    by (rewrite <- (length_fmap currentMessageNumber), Hg; apply length_fmap).
  split.
  - by rewrite Hg, Hl.
  - by rewrite Hc, Hl.
  - intros Hn. apply length_zero_iff_nil. rewrite Hl, (H3 (Hb Hn)). reflexivity.
Qed.

Lemma gens_markSettled rid w :
  currentMessageNumber <$> requests (markSettled rid w)
  = currentMessageNumber <$> requests w.
Proof.
  cbn. rewrite (list_fmap_alter _ _ id).
  - by apply list_alter_id.
  - by apply Forall_forall.
Qed.

Lemma numbered_sendSelection prompt editor w :
  numbered w -> numbered (sendSelection prompt editor w).
Proof.
  intros [H1 H2 H3].
  open_world w; split; crunch; auto; try discriminate.
  all: rewrite ?fmap_app, ?length_app, ?H1; cbn; rewrite ?H2.
  all: try (rewrite Nat.add_1_r, seq_S; reflexivity).
  all: lia.
Qed.

Lemma numbered_ensureAPI w : numbered w -> numbered (ensureAPI w).
Proof.
  intros Hw. unfold ensureAPI.
  destruct (_chatGPTAPI (this w)) eqn:Hb; [exact Hw|].
  destruct Hw as [H1 H2 H3].
  split; cbn [this on_this requests].
  - exact H1.
  - by rewrite newAPI_currentMessageNumber, (H3 Hb).
  - intros _. by apply H3.
Qed.

Lemma numbered_onProgress rid t w : numbered w -> numbered (onProgress rid t w).
Proof.
  intros Hw. unfold onProgress.
  destruct (requests w !! rid) as [rq|] eqn:Hrq; [|exact Hw].
  destruct (negb _); [exact Hw|].
  destruct (_view (this w)) as [v|] eqn:Hv; [|exact Hw].
  destruct (visible v); [|exact Hw].
  apply (numbered_of w); [| |auto|exact Hw].
  - unfold postMessage. cbn. rewrite Hv. cbn. rewrite list_fmap_insert.
    apply list_insert_id. by rewrite list_lookup_fmap, Hrq.
  - unfold postMessage. cbn. by rewrite Hv.
  - unfold postMessage. cbn. by rewrite Hv.
Qed.

Lemma numbered_onFulfilled rid res w : numbered w -> numbered (snd (onFulfilled rid res w)).
Proof.
  intros Hw. unfold onFulfilled.
  destruct (requests w !! rid) as [rq|] eqn:Hrq; [|exact Hw].
  apply (numbered_of w); [| | |exact Hw]; cbv zeta.
  - rewrite <- (gens_markSettled rid w).
    destruct (negb _); [open_world w; reflexivity|].
    open_world w; cbn; by destruct (or_false _).
  - destruct (negb _); [open_world w; reflexivity|].
    open_world w; cbn; by destruct (or_false _).
  - destruct (negb _); [open_world w; cbn; auto|].
    open_world w; cbn; destruct (or_false _); cbn; auto.
Qed.

Lemma numbered_onRejected rid e w : numbered w -> numbered (snd (onRejected rid e w)).
Proof.
  intros Hw. unfold onRejected.
  destruct (requests w !! rid) as [rq|] eqn:Hrq; [|exact Hw].
  apply (numbered_of w); [| | |exact Hw]; cbv zeta.
  - rewrite <- (gens_markSettled rid w). open_world w; reflexivity.
  - open_world w; reflexivity.
  - open_world w; cbn; auto.
Qed.

Lemma numbered_step w ev : resets ev = false -> numbered w -> numbered (step w ev).
Proof.
  intros Hev Hw. destruct ev; cbn [step]; cbn in Hev; try discriminate.
  - unfold onDidChangeConfiguration. fold (affectsAuth affectsConfiguration).
    rewrite Hev.
    repeat case_match; try exact Hw.
    all: apply (numbered_of w); [| | |exact Hw]; open_world w; cbn; auto.
  - apply (numbered_of w); [| | |exact Hw]; open_world w; cbn; auto.
  - apply (numbered_of w); [| | |exact Hw]; open_world w; cbn; auto.
  - apply (numbered_of w); [| | |exact Hw]; open_world w; cbn; auto.
  - rewrite searchSelection_prepared. unfold prepared.
    apply numbered_sendSelection.
    apply (numbered_of (ensureAPI (on_this (set_prompt prompt) w))).
    1-3: generalize (ensureAPI (on_this (set_prompt prompt) w)); intros w';
         open_world w'; destruct resolved; cbn; auto.
    apply numbered_ensureAPI.
    apply (numbered_of w); [| | |exact Hw]; open_world w; cbn; auto.
  - apply (numbered_of w); [| | |exact Hw]; open_world w; cbn; auto.
  - destruct (outstanding rid w); [by apply numbered_onProgress | exact Hw].
  - destruct (outstanding rid w); [by apply numbered_onFulfilled | exact Hw].
  - destruct (outstanding rid w); [by apply numbered_onRejected | exact Hw].
  - destruct (_view (this w)) eqn:Hv; [exact Hw|].
    apply (numbered_of (ensureAPI (on_this (set_prompt prompt) w))); [done..|].
    apply numbered_ensureAPI.
    apply (numbered_of w); [| | |exact Hw]; open_world w; cbn; auto.
  - by apply numbered_sendSelection.
Qed.

Lemma numbered_activate config : numbered (activate config).
Proof.
  split.
  - reflexivity.
  - unfold activate, setSettings, setAuthenticationInfo. cbn -[_newAPI].
    apply newAPI_currentMessageNumber.
  - intros _. reflexivity.
Qed.

(** X11: as long as no event restarts the numbering (no reset of the
    conversation, no change of an authentication key), the staleness test is
    exact: the requests carry the generations 1, 2, ... in the order of their
    dispatch, the message number is the number of requests issued, and the
    request that passes the test is the one dispatched last and no other. *)
Theorem generation_identifies_latest_request (config : Configuration)
    (evs : list Event) :
  Forall (fun ev => resets ev = false) evs ->
  currentMessageNumber <$> requests (run evs (activate config))
  = seq 1 (length (requests (run evs (activate config))))
  /\ _currentMessageNumber (this (run evs (activate config)))
     = length (requests (run evs (activate config)))
  /\ forall rid rq,
       requests (run evs (activate config)) !! rid = Some rq ->
       (currentMessageNumber rq = _currentMessageNumber (this (run evs (activate config)))
        <-> S rid = length (requests (run evs (activate config)))).
Proof.
  intros Hevs.
  assert (numbered (run evs (activate config))) as [H1 H2 _].
  { generalize (numbered_activate config). generalize (activate config). unfold run.
    induction Hevs as [|ev evs Hev _ IH]; intros w Hw; cbn; [exact Hw|].
    apply IH, numbered_step; assumption. }
  split; [exact H1|]. split; [exact H2|].
  intros rid rq Hrq. rewrite H2.
  assert ((currentMessageNumber <$> requests (run evs (activate config))) !! rid
          = Some (currentMessageNumber rq)) as Hg
    by (by rewrite list_lookup_fmap, Hrq).
  rewrite H1 in Hg. apply lookup_seq in Hg as [-> Hlt]. lia.
Qed.

Lemma generation_identifies_latest_request_witness :
  let w := run [ViewResolved panel; promptA; Abort; promptB; Rejected 0 "AbortError"]
               (activate sampleConfig) in
  currentMessageNumber <$> requests w = [1; 2]
  /\ _currentMessageNumber (this w) = 2.
Proof.
  intros w.
  destruct (generation_identifies_latest_request sampleConfig
              [ViewResolved panel; promptA; Abort; promptB; Rejected 0 "AbortError"])
    as (H1 & H2 & _).
  - repeat constructor.
  - split; [exact H1 | exact H2].
Defined.

(** ** What changes the conversation *)

Lemma dispatch_conversation prompt editor resolved w :
  _conversation (this (sendSelection prompt editor (focusView resolved w)))
  = _conversation (this w).
Proof. open_world w; destruct resolved; crunch; reflexivity. Qed.

Lemma ensureAPI_conversation w :
  shape w -> _conversation (this (ensureAPI w)) = _conversation (this w).
Proof.
  intros Hw. unfold ensureAPI. destruct (_chatGPTAPI (this w)) eqn:Hb; [reflexivity|].
  cbn [this on_this]. rewrite newAPI_conversation.
  by destruct (shape_nobackend w Hw Hb) as [_ ->].
Qed.

(** X12: the stored conversation changes only when a result arrives, when
    the conversation is reset, or when an authentication key changes.  In a
    reachable state no other event touches it: not a prompt, an abort, a
    progress chunk, a failure, a change of a setting, nor anything the view
    does. *)
Theorem conversation_changes_only_by_result_or_reset (w : World) (ev : Event) :
  reachable w ->
  resets ev = false ->
  (forall rid res, ev <> Fulfilled rid res) ->
  _conversation (this (step w ev)) = _conversation (this w).
Proof.
  intros Hr Hev Hne. pose proof (reachable_shape w Hr) as Hw. clear Hr.
  destruct ev; cbn [step]; cbn in Hev; try discriminate.
  - unfold onDidChangeConfiguration. fold (affectsAuth affectsConfiguration).
    rewrite Hev. repeat case_match; open_world w; reflexivity.
  - open_world w; reflexivity.
  - open_world w; reflexivity.
  - open_world w; reflexivity.
  - rewrite searchSelection_prepared. unfold prepared.
    rewrite dispatch_conversation, ensureAPI_conversation.
    + open_world w; reflexivity.
    + by apply shape_set_prompt.
  - open_world w; reflexivity.
  - clear Hw. open_world w; crunch; reflexivity.
  - exfalso. by apply (Hne rid res).
  - clear Hw. open_world w; crunch; reflexivity.
  - destruct (_view (this w)) eqn:Hv; [reflexivity|].
    unfold suspendSelection. cbv zeta. cbn [this emit].
    rewrite ensureAPI_conversation; [open_world w; reflexivity | by apply shape_set_prompt].
  - clear Hw. open_world w; crunch; reflexivity.
Qed.

Lemma conversation_changes_only_by_result_or_reset_witness :
  let w := run [ViewResolved panel; promptA; Fulfilled 0 resA] (activate sampleConfig) in
  _conversation (this (step w promptB)) = _conversation (this w)
  /\ _conversation (this (step w Abort)) = _conversation (this w).
Proof.
  intros w.
  assert (reachable w) as Hr
    by (exists sampleConfig, [ViewResolved panel; promptA; Fulfilled 0 resA]; reflexivity).
  split.
  - apply (conversation_changes_only_by_result_or_reset w promptB Hr eq_refl).
    intros rid res. discriminate.
  - apply (conversation_changes_only_by_result_or_reset w Abort Hr eq_refl).
    intros rid res. discriminate.
Defined.

(** ** Empty and missing prompts *)

Lemma searchSelection_prompt prompt editor resolved w :
  _prompt (this (searchSelection prompt editor resolved w)) = prompt.
Proof.
  rewrite searchSelection_prepared. unfold prepared.
  transitivity (_prompt (this (ensureAPI (on_this (set_prompt prompt) w)))).
  - generalize (ensureAPI (on_this (set_prompt prompt) w)). intros w'.
    open_world w'; destruct resolved; crunch; reflexivity.
  - unfold ensureAPI. destruct (_chatGPTAPI _); cbn [this on_this];
      rewrite ?newAPI_prompt; open_world w; reflexivity.
Qed.

Lemma searchSelection_issues prompt editor resolved w b :
  _chatGPTAPI (this w) = Some b ->
  exists rq,
    requests (searchSelection prompt editor resolved w) = requests w ++ [rq]
    /\ searchPrompt rq
       = buildSearchPrompt (_settings (this w)) (default ""%string prompt) editor.
Proof.
  intros Hb.
  destruct (searchSelection_sends_fullPrompt prompt editor resolved w b)
    as (rq & Hrq & Hsp).
  - by apply searchSelection_chatGPTAPI_some.
  - exists rq. split; [exact Hrq|].
    rewrite searchSelection_fullPrompt in Hsp. congruence.
Qed.



(** ** Messages of the webview *)

(** X14: of the messages the webview can send only ['prompt'] and
    ['abort'] change the provider, the requests or the abort controllers.
    ['webviewLoaded'] only posts the working-state field, ['codeSelected']
    only hands its value to the editor, when there is one, and a message of
    any other type is ignored. *)
Theorem webview_messages_frame (type : string) (value editor : option string)
    (resolved : option WebviewView) (w : World) :
  type <> "prompt"%string ->
  type <> "abort"%string ->
  this (fst (onDidReceiveMessage type value editor resolved w)) = this w
  /\ requests (fst (onDidReceiveMessage type value editor resolved w)) = requests w
  /\ controllers (fst (onDidReceiveMessage type value editor resolved w)) = controllers w
  /\ effects (fst (onDidReceiveMessage type value editor resolved w))
     = effects w
       ++ (if String.eqb type "webviewLoaded" then
             match _view (this w) with
             | Some _ => [Posted (setWorkingState (_workingState (this w)))]
             | None => []
             end
           else [])
  /\ snd (onDidReceiveMessage type value editor resolved w)
     = (if String.eqb type "codeSelected" then
          match editor with
          | Some _ => Some value
          | None => None
          end
        else None).
Proof.
  intros Hp Ha. unfold onDidReceiveMessage.
  apply String.eqb_neq in Hp, Ha. rewrite Hp, Ha.
  destruct (String.eqb_spec type "webviewLoaded") as [->|Hl].
  - cbn. open_world w; cbn; rewrite ?app_nil_r; repeat split.
  - destruct (String.eqb type "codeSelected"); cbn; rewrite app_nil_r; repeat split.
Qed.

Lemma webview_messages_frame_witness :
  let w := run [ViewResolved panel; promptA] (activate sampleConfig) in
  fst (onDidReceiveMessage "codeSelected" (Some "x = 1"%string) (Some ""%string) None w) = w
  /\ snd (onDidReceiveMessage "codeSelected" (Some "x = 1"%string) (Some ""%string) None w)
     = Some (Some "x = 1"%string)
  /\ effects (fst (onDidReceiveMessage "webviewLoaded" None None None w))
     = effects w ++ [Posted (setWorkingState asking)].
Proof.
  intros w.
  destruct (webview_messages_frame "webviewLoaded" None None None w) as (_ & _ & _ & H & _);
    [discriminate | discriminate |].
  destruct (webview_messages_frame "codeSelected" (Some "x = 1"%string) (Some ""%string)
              None w) as (_ & _ & _ & _ & H');
    [discriminate | discriminate |].
  split; [reflexivity | split; [exact H' | exact H]].
Defined.

(** ** What the working-state field records *)

Lemma field_tracks_of (w w' : World) :
  length (requests w') = length (requests w) ->
  _workingState (this w') = _workingState (this w) ->
  field_tracks_requests w -> field_tracks_requests w'.
Proof.
  unfold field_tracks_requests. intros Hl -> ->.
  destruct (requests w), (requests w'); cbn in Hl; congruence.
Qed.

Lemma field_tracks_sendSelection prompt editor w :
  field_tracks_requests w -> field_tracks_requests (sendSelection prompt editor w).
Proof.
  unfold field_tracks_requests. intros Hw.
  open_world w; crunch; auto.
  all: by destruct requests.
Qed.

Lemma field_tracks_step w ev : field_tracks_requests w -> field_tracks_requests (step w ev).
Proof.
  intros Hw. destruct ev; cbn [step].
  - unfold onDidChangeConfiguration.
    repeat case_match; try exact Hw.
    apply (field_tracks_of (setAuthenticationInfo (authInfoOf config) w)).
    + generalize (setAuthenticationInfo (authInfoOf config) w). intros w'.
      open_world w'; reflexivity.
    + generalize (setAuthenticationInfo (authInfoOf config) w). intros w'.
      open_world w'; reflexivity.
    + apply (field_tracks_of w); [reflexivity| |exact Hw].
      unfold setAuthenticationInfo. cbn [this on_this]. by rewrite newAPI_workingState.
  - apply (field_tracks_of w); [| |exact Hw]; open_world w; reflexivity.
  - apply (field_tracks_of w); [| |exact Hw]; open_world w; reflexivity.
  - apply (field_tracks_of w); [| |exact Hw]; open_world w; reflexivity.
  - rewrite searchSelection_prepared. unfold prepared.
    apply field_tracks_sendSelection.
    apply (field_tracks_of (ensureAPI (on_this (set_prompt prompt) w))).
    1-2: generalize (ensureAPI (on_this (set_prompt prompt) w)); intros w';
         open_world w'; destruct resolved; reflexivity.
    apply (field_tracks_of w); [| |exact Hw]; autorewrite with provider;
      open_world w; reflexivity.
  - apply (field_tracks_of w); [| |exact Hw]; open_world w; reflexivity.
  - apply (field_tracks_of w); [| |exact Hw]; open_world w; reflexivity.
  - apply (field_tracks_of w); [| |exact Hw].
    + destruct (outstanding rid w); [|reflexivity]. unfold onProgress.
      repeat case_match; try reflexivity. unfold postMessage. cbn.
      case_match; cbn; apply length_insert.
    + destruct (outstanding rid w); [|reflexivity]. unfold onProgress.
      repeat case_match; try reflexivity. open_world w; reflexivity.
  - apply (field_tracks_of w); [| |exact Hw].
    + destruct (outstanding rid w); [|reflexivity]. unfold onFulfilled.
      destruct (requests w !! rid); [|reflexivity]. cbv zeta.
      transitivity (length (requests (markSettled rid w))); [|apply length_alter].
      destruct (negb _); [open_world w; reflexivity|].
      open_world w; cbn; by destruct (or_false _).
    + destruct (outstanding rid w); [|reflexivity]. unfold onFulfilled.
      destruct (requests w !! rid); [|reflexivity]. cbv zeta.
      destruct (negb _); [open_world w; reflexivity|].
      open_world w; cbn; by destruct (or_false _).
  - apply (field_tracks_of w); [| |exact Hw].
    + destruct (outstanding rid w); [|reflexivity]. unfold onRejected.
      destruct (requests w !! rid); [|reflexivity]. cbv zeta.
      transitivity (length (requests (markSettled rid w))); [|apply length_alter].
      open_world w; reflexivity.
    + destruct (outstanding rid w); [|reflexivity]. unfold onRejected.
      destruct (requests w !! rid); [|reflexivity]. open_world w; reflexivity.
  - destruct (_view (this w)) eqn:Hv; [exact Hw|].
    apply (field_tracks_of w); [| |exact Hw]; unfold suspendSelection; cbv zeta;
      cbn [requests this emit]; autorewrite with provider; open_world w; reflexivity.
  - by apply field_tracks_sendSelection.
Qed.

Lemma field_tracks_activate config : field_tracks_requests (activate config).
Proof.
  unfold field_tracks_requests, activate, setSettings, setAuthenticationInfo.
  cbn -[_newAPI]. apply newAPI_workingState.
Qed.

(** X15: in a reachable state the working-state field does not say
    whether a request is outstanding; it says whether a backend call was ever
    issued: it is [idle] as long as none was, and [asking] from the first
    dispatch on, whatever has settled or been aborted since. *)
Theorem workingState_field_records_first_dispatch (w : World) :
  reachable w ->
  (_workingState (this w) = idle <-> requests w = [])
  /\ (_workingState (this w) = asking <-> requests w <> []).
Proof.
  intros (config & evs & ->).
  assert (field_tracks_requests (run evs (activate config))) as H.
  { generalize (field_tracks_activate config). generalize (activate config). unfold run.
    induction evs as [|ev evs IH]; intros w Hw; cbn; [exact Hw|].
    apply IH, field_tracks_step, Hw. }
  unfold field_tracks_requests in H. rewrite H.
  destruct (requests (run evs (activate config))); split; split; intros; congruence.
Qed.

Lemma workingState_field_records_first_dispatch_witness :
  let w := run [ViewResolved panel; promptA; Abort; Rejected 0 "AbortError"]
               (activate sampleConfig) in
  outstanding 0 w = false /\ _workingState (this w) = asking.
Proof.
  intros w. destruct (workingState_field_records_first_dispatch w) as [_ [_ H]].
  - exists sampleConfig, [ViewResolved panel; promptA; Abort; Rejected 0 "AbortError"].
    reflexivity.
  - split; [reflexivity | apply H; discriminate].
Defined.

(** ** Without a view *)

Lemma silent_of (w w' : World) :
  (_view (this w') = None ->
   _view (this w) = None
   /\ exists k, effects w' = effects w ++ replicate k FocusCommand) ->
  silent_without_view w -> silent_without_view w'.
Proof.
  unfold silent_without_view. intros H Hw Hv.
  destruct (H Hv) as (Hv' & k & ->).
  apply Forall_app. split; [by apply Hw|]. by apply Forall_replicate.
Qed.

Ltac silent_by_cases w :=
  refine (silent_of w _ _ ltac:(assumption)); intros Hv;
  open_world w; cbn in Hv |- *; crunch; try discriminate;
  (split; [reflexivity|]);
  first [ by exists 0; rewrite app_nil_r | by exists 1 ].

Lemma silent_step w ev : silent_without_view w -> silent_without_view (step w ev).
Proof.
  intros Hw. destruct ev; cbn [step].
  - unfold onDidChangeConfiguration.
    repeat case_match; try exact Hw.
    assert (silent_without_view (setAuthenticationInfo (authInfoOf config) w)) as Hw'.
    { refine (silent_of w _ _ Hw). unfold setAuthenticationInfo.
      cbn [this on_this effects]. rewrite newAPI_view. intros Hv.
      split; [open_world w; exact Hv|]. exists 0. by rewrite app_nil_r. }
    revert Hw'. generalize (setAuthenticationInfo (authInfoOf config) w). clear.
    intros w Hw. silent_by_cases w.
  - silent_by_cases w.
  - silent_by_cases w.
  - silent_by_cases w.
  - rewrite searchSelection_prepared. unfold prepared.
    assert (silent_without_view (ensureAPI (on_this (set_prompt prompt) w))) as Hw'.
    { refine (silent_of w _ _ Hw). autorewrite with provider. intros Hv.
      split; [open_world w; exact Hv|]. exists 0. rewrite app_nil_r.
      open_world w; reflexivity. }
    revert Hw'. generalize (ensureAPI (on_this (set_prompt prompt) w)). clear.
    intros w Hw. refine (silent_of w _ _ Hw). intros Hv.
    open_world w; destruct resolved; cbn in Hv |- *; crunch; try discriminate.
    all: (split; [reflexivity|]); by exists 1.
  - silent_by_cases w.
  - silent_by_cases w.
  - silent_by_cases w.
  - silent_by_cases w.
  - silent_by_cases w.
  - destruct (_view (this w)) eqn:Hv; [exact Hw|].
    refine (silent_of w _ _ Hw). intros _. split; [exact Hv|]. exists 1.
    unfold suspendSelection. cbv zeta. cbn [effects emit]. rewrite ensureAPI_effects.
    open_world w; reflexivity.
  - silent_by_cases w.
Qed.

(** X16: the provider never posts to a view it does not have.  In a
    reachable state without a view the trace consists of focus commands only:
    nothing has been posted or shown, whatever prompts, results, failures,
    aborts and resets there have been. *)
Theorem nothing_posted_without_view (w : World) :
  reachable w ->
  _view (this w) = None ->
  Forall (fun e => e = FocusCommand) (effects w).
Proof.
  intros (config & evs & ->).
  assert (silent_without_view (activate config)) as H0 by (intros _; constructor).
  revert H0. generalize (activate config). unfold run.
  induction evs as [|ev evs IH]; intros w Hw; cbn; [exact Hw|].
  apply IH, silent_step, Hw.
Qed.

Lemma nothing_posted_without_view_witness :
  effects (run [promptA; Fulfilled 0 resA; Abort; ResetConversation]
               (activate sampleConfig))
  = [FocusCommand].
Proof.
  pose proof (nothing_posted_without_view
                (run [promptA; Fulfilled 0 resA; Abort; ResetConversation]
                     (activate sampleConfig))) as H.
  assert (Forall (fun e => e = FocusCommand)
            (effects (run [promptA; Fulfilled 0 resA; Abort; ResetConversation]
                          (activate sampleConfig)))) as _.
  { apply H; [|reflexivity].
    exists sampleConfig, [promptA; Fulfilled 0 resA; Abort; ResetConversation].
    reflexivity. }
  reflexivity.
Defined.

(** ** Configuration changes, by the credentials *)

(** X20: a change that touches none of the four authentication keys and
    touches one of [selectedInsideCodeblock], [keepConversation] and
    [timeoutLength] replaces that one field of the settings by the configured
    value and changes nothing else: the other settings, the backend, the
    conversation, the message number, the prompt and response texts, the
    outstanding requests and the trace are as before.  A change that touches
    [mode], [apiKey], [accessToken] or [proxyUrl] stores the new
    authentication info and resets the conversation, the message number and
    the texts; it installs a new backend when the new credentials are
    complete and keeps the backend that was there when they are not. *)
Theorem configuration_change (affectsConfiguration : string -> bool)
    (config : Configuration) (w : World) :
  (affectsAuth affectsConfiguration = false ->
     (affectsConfiguration "chatgpt.selectedInsideCodeblock" = true ->
        onDidChangeConfiguration affectsConfiguration config w
        = on_this (set_settings
            {| selectedInsideCodeblock :=
                 Some (or_false (cfg_selectedInsideCodeblock config));
               keepConversation := keepConversation (_settings (this w));
               timeoutLength := timeoutLength (_settings (this w)) |}) w)
     /\ (affectsConfiguration "chatgpt.selectedInsideCodeblock" = false ->
         affectsConfiguration "chatgpt.keepConversation" = true ->
         onDidChangeConfiguration affectsConfiguration config w
         = on_this (set_settings
             {| selectedInsideCodeblock := selectedInsideCodeblock (_settings (this w));
                keepConversation := Some (or_false (cfg_keepConversation config));
                timeoutLength := timeoutLength (_settings (this w)) |}) w)
     /\ (affectsConfiguration "chatgpt.selectedInsideCodeblock" = false ->
         affectsConfiguration "chatgpt.keepConversation" = false ->
         affectsConfiguration "chatgpt.timeoutLength" = true ->
         onDidChangeConfiguration affectsConfiguration config w
         = on_this (set_settings
             {| selectedInsideCodeblock := selectedInsideCodeblock (_settings (this w));
                keepConversation := keepConversation (_settings (this w));
                timeoutLength := Some (or_60 (cfg_timeoutLength config)) |}) w)
     /\ (exists s, onDidChangeConfiguration affectsConfiguration config w
                   = on_this (set_settings s) w))
  /\ (affectsAuth affectsConfiguration = true ->
      _authInfo (this (onDidChangeConfiguration affectsConfiguration config w))
      = Some (authInfoOf config)
      /\ (forall b, complete (authInfoOf config) b ->
          _chatGPTAPI (this (onDidChangeConfiguration affectsConfiguration config w))
          = Some b)
      /\ ((forall b, ~ complete (authInfoOf config) b) ->
          _chatGPTAPI (this (onDidChangeConfiguration affectsConfiguration config w))
          = _chatGPTAPI (this w))
      /\ _conversation (this (onDidChangeConfiguration affectsConfiguration config w)) = None
      /\ _currentMessageNumber (this (onDidChangeConfiguration affectsConfiguration config w))
         = 0
      /\ _prompt (this (onDidChangeConfiguration affectsConfiguration config w))
         = Some ""%string
      /\ _response (this (onDidChangeConfiguration affectsConfiguration config w))
         = Some ""%string
      /\ _settings (this (onDidChangeConfiguration affectsConfiguration config w))
         = _settings (this w)
      /\ requests (onDidChangeConfiguration affectsConfiguration config w) = requests w).
Proof.
  unfold affectsAuth, onDidChangeConfiguration. split; intros ->.
  - split; [|split; [|split]].
    + intros ->. open_world w; reflexivity.
    + intros -> ->. open_world w; reflexivity.
    + intros -> -> ->. open_world w; reflexivity.
    + repeat case_match; unfold setSettings; eauto.
      exists (_settings (this w)). open_world w; reflexivity.
  - destruct (resetConversation_clears (setAuthenticationInfo (authInfoOf config) w))
      as (Hc & Hn & Hp & Hr & _ & Hb & Hs & Ha).
    rewrite Hc, Hn, Hp, Hr, Hb, Hs, Ha, resetConversation_requests.
    unfold setAuthenticationInfo. cbn [this on_this requests].
    rewrite newAPI_authInfo, newAPI_settings.
    split; [open_world w; reflexivity|].
    split; [intros b Hcomplete; by apply newAPI_complete with (a := authInfoOf config)|].
    split.
    { intros Hno. rewrite newAPI_incomplete; [open_world w; reflexivity|].
      intros a b [= <-]. apply Hno. }
    repeat split; open_world w; reflexivity.
Qed.

Lemma configuration_change_witness :
  onDidChangeConfiguration (affects "chatgpt.keepConversation") emptyConfig
    (activate sampleConfig)
  = on_this (set_settings
       {| selectedInsideCodeblock := Some true;
          keepConversation := Some false;
          timeoutLength := Some 30%Z |})
      (activate sampleConfig)
  /\ _chatGPTAPI (this (onDidChangeConfiguration (affects "chatgpt.apiKey")
                          rotatedKey (activate sampleConfig)))
     = Some (ChatGPTAPI "sk-2")
  /\ _conversation (this (onDidChangeConfiguration (affects "chatgpt.apiKey")
                            rotatedKey (activate sampleConfig)))
     = None
  /\ _chatGPTAPI (this (onDidChangeConfiguration (affects "chatgpt.mode")
                          emptyConfig (activate sampleConfig)))
     = Some (ChatGPTAPI "sk-1").
Proof.
  split; [|split; [|split]].
  - pose proof (configuration_change (affects "chatgpt.keepConversation") emptyConfig
                  (activate sampleConfig)) as [H _].
    specialize (H eq_refl). destruct H as (_ & H & _).
    exact (H eq_refl eq_refl).
  - pose proof (configuration_change (affects "chatgpt.apiKey") rotatedKey
                  (activate sampleConfig)) as [_ H].
    specialize (H eq_refl). destruct H as (_ & H & _).
    apply H. left. split; [reflexivity|]. exists "sk-2"%string.
    split; [reflexivity | split; [discriminate | reflexivity]].
  - pose proof (configuration_change (affects "chatgpt.apiKey") rotatedKey
                  (activate sampleConfig)) as [_ H].
    specialize (H eq_refl). destruct H as (_ & _ & _ & H & _).
    exact H.
  - pose proof (configuration_change (affects "chatgpt.mode") emptyConfig
                  (activate sampleConfig)) as [_ H].
    specialize (H eq_refl). destruct H as (_ & _ & H & _).
    rewrite H; [reflexivity|].
    intros b [(Hm & _) | (Hm & _)]; discriminate Hm.
Defined.

(** ** Where the code departs from the specification, continued *)

(** C6 (not met by the code): the API key is cleared while a backend built
    from the old key exists.  The construction from the new authentication
    info fails, but [_newAPI] leaves the old backend in place: the next
    prompt is not answered with the API-key error, it is sent to the backend
    of the old key. *)
Theorem cleared_key_prompt_reaches_old_backend :
  let w := run [ViewResolved panel;
                ConfigurationChanged (affects "chatgpt.apiKey") clearedKey]
               (activate sampleConfig) in
  (forall b, ~ complete (authInfoOf clearedKey) b)
  /\ _authInfo (this w) = Some (authInfoOf clearedKey)
  /\ _chatGPTAPI (this w) = Some (ChatGPTAPI "sk-1")
  /\ api <$> requests (step w promptA) !! 0 = Some (ChatGPTAPI "sk-1")
  /\ _response (this (step w promptA)) = Some ""%string
  /\ _workingState (this (step w promptA)) = asking
  /\ effects (step w promptA)
     = effects w ++ [Shown; Posted (setPrompt (Some "A"%string));
                     Posted (setWorkingState asking)].
Proof.
  split.
  - intros b [(_ & k & Hk & Hne & _) | (Hm & _)].
    + cbn in Hk. congruence.
    + discriminate Hm.
  - vm_compute. repeat split.
Qed.

(** C7 (not met by the code): the only request fails.  The partial text
    with the error trailer becomes the response and the panel is told [idle],
    but the working-state field is still [asking], and a reloaded webview is
    told [asking] though nothing is outstanding. *)
Theorem failure_leaves_field_asking :
  let w := run [ViewResolved panel; promptA; Progress 0 "par";
                Rejected 0 "Error: timed out"]
               (activate sampleConfig) in
  _response (this w)
  = Some ("par" +:+ nl +:+ nl +:+ "---" +:+ nl +:+ "[ERROR] Error: timed out")
  /\ outstanding 0 w = false
  /\ shownWorkingState (effects w) = Some idle
  /\ _workingState (this w) = asking
  /\ shownWorkingState (effects (step w WebviewLoaded)) = Some asking.
Proof. vm_compute. repeat split. Qed.

(** C8 (not met by the code): a request is outstanding and the user
    aborts.  The live controller is signalled and replaced and the panel is
    told [idle], but the working-state field is still [asking], also after
    the aborted call has failed, and a reloaded webview is told [asking]. *)
Theorem abort_leaves_field_asking :
  let w := run [ViewResolved panel; promptA; Abort] (activate sampleConfig) in
  controllers w = [true; false]
  /\ _abortController (this w) = 1
  /\ shownWorkingState (effects w) = Some idle
  /\ _workingState (this w) = asking
  /\ _workingState (this (step w (Rejected 0 "AbortError"))) = asking
  /\ outstanding 0 (step w (Rejected 0 "AbortError")) = false
  /\ shownWorkingState (effects (run [Rejected 0 "AbortError"; WebviewLoaded] w))
     = Some asking.
Proof. vm_compute. repeat split. Qed.

(** C9 (not met by the code): the API key is cleared after a conversation
    has been stored.  The change resets the conversation, the message number
    and the texts and stores the new authentication info, but it does not
    rebuild the backend: the construction fails and the backend of the old
    key stays. *)
Theorem cleared_key_keeps_old_backend :
  let before := run [ViewResolved panel; promptA; Fulfilled 0 resA]
                    (activate sampleConfig) in
  let w := step before (ConfigurationChanged (affects "chatgpt.apiKey") clearedKey) in
  (forall b, ~ complete (authInfoOf clearedKey) b)
  /\ _conversation (this before)
     = Some {| conversationId := "conv-A"; parentMessageId := "msg-A" |}
  /\ _chatGPTAPI (this before) = Some (ChatGPTAPI "sk-1")
  /\ _authInfo (this w) = Some (authInfoOf clearedKey)
  /\ _conversation (this w) = None
  /\ _currentMessageNumber (this w) = 0
  /\ _response (this w) = Some ""%string
  /\ _chatGPTAPI (this w) = Some (ChatGPTAPI "sk-1").
Proof.
  split.
  - intros b [(_ & k & Hk & Hne & _) | (Hm & _)].
    + cbn in Hk. congruence.
    + discriminate Hm.
  - vm_compute. repeat split.
Qed.
